(** * kv_exercise: the storage backends of the key-value service

    A shallow embedding of [service/backends.py]: the [KeyConflict]
    exception, the [ABCBackend] interface and its two implementations,
    [InMemoryKvStore] (a live Python dict) and [LocalDiskKvStore] (one
    pickled dict in the file [kv_file], read and rewritten by every
    operation).

    It also embeds the view of [service/main.py] that calls the backends:
    [kv_operation], [_read_request_value], [_build_response], the four
    error handlers, the two JSON schemas and the settings of the main
    block.

    Python values are modelled by [Value], a dict by an insertion-ordered
    association list, an operation by a function from the state of the
    backend to a [Result] and the next state.  [pickle] is a library: it is
    taken as an interface ([Pickle]) with its round-trip law as an explicit
    assumption.  Logging ([logger.info]) has no effect on the store or on
    the result of an operation and is left out, as is the lock of the disk
    backend: the model runs one operation at a time.  The methods of the
    disk backend are given twice: as they run when the file system lets
    the write through, and under a fault of the write, when the file
    cannot be opened for writing or the dump fails. *)

From Stdlib.Strings Require Import Byte.
From stdpp Require Import base decidable option strings pretty countable list.

(** ** Python values *)

(** The values the service stores: what [json] yields for a string, a
    number, a boolean or null.  [VNone] is Python's [None]; it is at once
    the JSON null, the result of a method without [return], and what
    [replace] reports for a key that was not there.  The backends store
    and return values and never look inside one; a number is an integer
    here. *)
Inductive Value : Type :=
  | VNone
  | VStr (s : string)
  | VNum (n : Z)
  | VBool (b : bool).

#[global] Instance Value_eq_dec : EqDecision Value.
Proof. solve_decision. Defined.

(** ** Exceptions and results *)

(** The exceptions the backends can raise.  [KeyConflict] is the class of
    the module, with its three attributes; the others are built in:
    [KeyError] from [dict], [TypeError] from a call with the wrong number
    of arguments, [FileNotFoundError] from [open].  [UnpicklingError]
    stands for whatever [pickle.load] raises on a file it cannot decode
    into a dict, [OSError] for what [open] and [pickle.dump] raise when
    the file cannot be opened for writing or cannot be written. *)
Inductive Exn : Type :=
  | KeyConflict (key : string) (old_value new_value : Value)
  | KeyError (key : string)
  | TypeError (msg : string)
  | UnpicklingError
  | FileNotFoundError
  | OSError.

#[global] Instance Exn_eq_dec : EqDecision Exn.
Proof. solve_decision. Defined.

Inductive Result (A : Type) : Type :=
  | Return (a : A)
  | Raise (e : Exn).
Arguments Return {A} a.
Arguments Raise {A} e.

(** Sequencing: an exception ends the computation. *)
#[global] Instance Result_ret : MRet Result := λ A, @Return A.

#[global] Instance Result_bind : MBind Result := λ A B f r,
  match r with
  | Return a => f a
  | Raise e => Raise e
  end.

(** [KeyConflict(...)]: the call of the class.  [__init__(self, key,
    old_value, new_value)] has three required parameters after [self]; any
    other number of positional arguments is a [TypeError] raised by the
    call itself, before any [KeyConflict] exists. *)
Definition arity_error : Exn :=
  TypeError "KeyConflict.__init__() called with the wrong number of arguments".

Definition KeyConflict__init__ (key : string) (args : list Value) : Result Exn :=
  match args with
  | [old_value; new_value] => Return (KeyConflict key old_value new_value)
  | _ => Raise arity_error
  end.

(** [raise <expr>]: raises what the expression evaluates to, or what its
    evaluation raised. *)
Definition raise_from {A} (e : Result Exn) : Result A :=
  match e with
  | Return exn => Raise exn
  | Raise exn => Raise exn
  end.

(** ** The dict *)

(** A Python dict from [str] to [Value], in insertion order. *)
Abbreviation Store := (list (string * Value)).

(** [d.get(key)] as an option: the first entry under [key]. *)
Fixpoint dict_get (d : Store) (key : string) : option Value :=
  match d with
  | [] => None
  | (k, v) :: d' => if decide (k = key) then Some v else dict_get d' key
  end.

(** [key in d] *)
Definition dict_contains (d : Store) (key : string) : bool :=
  match dict_get d key with Some _ => true | None => false end.

(** [d[key]] *)
Definition dict_getitem (d : Store) (key : string) : Result Value :=
  match dict_get d key with
  | Some v => Return v
  | None => Raise (KeyError key)
  end.

(** [d[key] = value]: overwrites the entry in place when there is one,
    appends a new entry otherwise. *)
Fixpoint dict_setitem (d : Store) (key : string) (value : Value) : Store :=
  match d with
  | [] => [(key, value)]
  | (k, v) :: d' =>
      if decide (k = key) then (k, value) :: d'
      else (k, v) :: dict_setitem d' key value
  end.

(** The dict without what it holds under [key]. *)
Fixpoint dict_remove (d : Store) (key : string) : Store :=
  match d with
  | [] => []
  | (k, v) :: d' =>
      if decide (k = key) then dict_remove d' key
      else (k, v) :: dict_remove d' key
  end.

(** [d.pop(key)]: the value and the dict without the entry, or [KeyError]
    and the dict as it was. *)
Definition dict_pop (d : Store) (key : string) : Result Value * Store :=
  match dict_get d key with
  | Some v => (Return v, dict_remove d key)
  | None => (Raise (KeyError key), d)
  end.

(** The number of entries of [d] under [key]. *)
Definition dict_count (d : Store) (key : string) : nat :=
  length (filter (λ kv, kv.1 = key) d).

(** ** The interface *)

(** [ABCBackend]: the four abstract methods.  A method takes the state of
    the backend and returns what the call returns or raises, and the state
    after the call. *)
Class ABCBackend (B : Type) : Type := {
  create : string → Value → B → Result Value * B;
  replace : string → Value → B → Result Value * B;
  delete : string → B → Result Value * B;
  get : string → B → Result Value * B;
}.

(** ** The in-memory backend *)

Module InMemoryKvStore.

(** The object: its one attribute. *)
Record t : Type := Build { kv_store : Store }.

Definition __init__ : t := {| kv_store := [] |}.

Definition create (key : string) (value : Value) (self : t) : Result Value * t :=
  if dict_contains (kv_store self) key then
    (old_value ← dict_getitem (kv_store self) key;
     raise_from (KeyConflict__init__ key [old_value; value]),
     self)
  else
    (Return VNone, {| kv_store := dict_setitem (kv_store self) key value |}).

Definition replace (key : string) (value : Value) (self : t) : Result Value * t :=
  let old_value :=
    if negb (dict_contains (kv_store self) key) then Return VNone
    else dict_getitem (kv_store self) key in
  match old_value with
  | Return old_value =>
      (Return old_value, {| kv_store := dict_setitem (kv_store self) key value |})
  | Raise e => (Raise e, self)
  end.

Definition delete (key : string) (self : t) : Result Value * t :=
  let '(r, d) := dict_pop (kv_store self) key in (r, {| kv_store := d |}).

Definition get (key : string) (self : t) : Result Value * t :=
  (dict_getitem (kv_store self) key, self).

#[global] Instance backend : ABCBackend t :=
  Build_ABCBackend t create replace delete get.

End InMemoryKvStore.

(** ** The file system and [pickle] *)

(** What the disk backend does to the outside world, in order. *)
Inductive IOEvent : Type :=
  | OpenRead
  | OpenWrite
  | Dump (data : list byte).

(** The world of the disk backend: the contents of the file [kv_file]
    ([None] when there is no such file) and the trace of what was done to
    it. *)
Record World : Type := {
  kv_file : option (list byte);
  io_trace : list IOEvent;
}.

(** [pickle.dump] and [pickle.load] on dicts.  [pickle_load] is [None] on
    bytes that are not a pickle. *)
Class Pickle : Type := {
  pickle_dump : Store → list byte;
  pickle_load : list byte → option Store;
}.

(** What the library promises: loading what was dumped gives the dict
    back, and no pickle is empty ([pickle.load] of an empty file raises). *)
Definition pickle_roundtrip `{Pickle} : Prop :=
  ∀ d : Store, pickle_load (pickle_dump d) = Some d.

Definition pickle_nonempty `{Pickle} : Prop :=
  pickle_load [] = None.

(** Computations on the world that may raise. *)
Definition IO (A : Type) : Type := World → Result A * World.

Definition io_ret {A} (a : A) : IO A := λ w, (Return a, w).

Definition io_bind {A B} (m : IO A) (f : A → IO B) : IO B :=
  λ w, match m w with
       | (Return a, w') => f a w'
       | (Raise e, w') => (Raise e, w')
       end.

(** A pure computation that may raise: the world is not touched. *)
Definition io_lift {A} (r : Result A) : IO A := λ w, (r, w).

(** A step on the world that cannot raise. *)
Definition io_step (f : World → World) : IO unit := λ w, (Return tt, f w).

Notation "x <- m ;; k" := (io_bind m (λ x, k))
  (at level 100, m at next level, right associativity,
   format "x  <-  m  ;;  '/' k").

(** [open(filename, 'rb')] and reading the whole file. *)
Definition open_rb : IO (list byte) :=
  λ w, match kv_file w with
       | Some data =>
           (Return data, {| kv_file := kv_file w; io_trace := io_trace w ++ [OpenRead] |})
       | None => (Raise FileNotFoundError, w)
       end.

(** [open(filename, 'wb')]: creates the file or truncates it. *)
Definition open_wb (w : World) : World :=
  {| kv_file := Some []; io_trace := io_trace w ++ [OpenWrite] |}.

(** Writing [data] at the end of the open file. *)
Definition file_write (data : list byte) (w : World) : World :=
  {| kv_file := Some (default [] (kv_file w) ++ data);
     io_trace := io_trace w ++ [Dump data] |}.

(** The steps of a list, one after the other. *)
Definition run_steps (steps : list (World → World)) (w : World) : World :=
  foldl (λ w step, step w) w steps.

(** ** The disk backend *)

(** The object holds a file name, always ['kv_file'], and a lock, and no
    dict: the state of the backend is the world, and a new object on the
    same file starts from what the file holds. *)
Module LocalDiskKvStore.
Section WithPickle.
Context `{Pickle}.

(** [pickle.load(open_file)] *)
Definition load (open_file : list byte) : Result Store :=
  match pickle_load open_file with
  | Some kv_store => Return kv_store
  | None => Raise UnpicklingError
  end.

(** [with open(self.filename, 'wb') as f: pickle.dump(kv_store, f)], as
    the two steps it is made of. *)
Definition write_path (kv_store : Store) : list (World → World) :=
  [open_wb; file_write (pickle_dump kv_store)].

(** The constructor: writes an empty dict when there is no file, leaves
    an existing file alone. *)
Definition __init__ (w : World) : World :=
  match kv_file w with
  | None => run_steps (write_path []) w
  | Some _ => w
  end.

(** [_safe_op], in a run in which the file can be opened for writing and
    written; [_safe_op_under] is the method when it cannot. *)
Definition _safe_op (kv_op : list byte → Result (Store * Value)) : IO Value :=
  open_file <- open_rb ;;
  result <- io_lift (kv_op open_file) ;;
  let '(kv_store, value) := result in
  _ <- io_step (run_steps (write_path kv_store)) ;;
  io_ret value.

Definition _create (key : string) (value : Value) (open_file : list byte)
  : Result (Store * Value) :=
  kv_store ← load open_file;
  if dict_contains kv_store key then
    old_value ← dict_getitem kv_store key;
    raise_from (KeyConflict__init__ key [old_value])
  else
    mret (dict_setitem kv_store key value, value).

Definition _replace (key : string) (value : Value) (open_file : list byte)
  : Result (Store * Value) :=
  kv_store ← load open_file;
  old_value ← (if negb (dict_contains kv_store key) then mret VNone
               else dict_getitem kv_store key);
  mret (dict_setitem kv_store key value, old_value).

Definition _delete (key : string) (open_file : list byte)
  : Result (Store * Value) :=
  kv_store ← load open_file;
  let '(popped, kv_store) := dict_pop kv_store key in
  value ← popped;
  mret (kv_store, value).

Definition _get (key : string) (open_file : list byte)
  : Result (Store * Value) :=
  kv_store ← load open_file;
  value ← dict_getitem kv_store key;
  mret (kv_store, value).

(** [create] drops what [_safe_op] returns: the call returns [None]. *)
Definition create (key : string) (value : Value) : IO Value :=
  _ <- _safe_op (_create key value) ;;
  io_ret VNone.

Definition replace (key : string) (value : Value) : IO Value :=
  _safe_op (_replace key value).

Definition delete (key : string) : IO Value :=
  _safe_op (_delete key).

Definition get (key : string) : IO Value :=
  _safe_op (_get key).

#[global] Instance backend : ABCBackend World :=
  Build_ABCBackend World create replace delete get.

End WithPickle.
End LocalDiskKvStore.

(** ** Sequences of operations *)

Inductive Op : Type :=
  | OpCreate (key : string) (value : Value)
  | OpReplace (key : string) (value : Value)
  | OpDelete (key : string)
  | OpGet (key : string).

(** One call of the interface. *)
Definition apply_op {B} `{ABCBackend B} (op : Op) : B → Result Value * B :=
  match op with
  | OpCreate key value => create key value
  | OpReplace key value => replace key value
  | OpDelete key => delete key
  | OpGet key => get key
  end.

(** One call after the other on the same backend; the caller handles what
    a call raises and goes on with the next one. *)
Definition run_ops {B} `{ABCBackend B} (ops : list Op) (b : B) : B :=
  foldl (λ b op, (apply_op op b).2) b ops.

(** The dict of the disk backend: what a read of the file decodes to. *)
Definition read_store `{Pickle} (w : World) : option Store :=
  match kv_file w with
  | Some data => pickle_load data
  | None => None
  end.

(** A write that stops after its first [n] steps. *)
Definition interrupted_write `{Pickle} (n : nat) (kv_store : Store) (w : World) : World :=
  run_steps (take n (LocalDiskKvStore.write_path kv_store)) w.

(** The world after the file was opened and read, and nothing else. *)
Definition after_read (w : World) : World :=
  {| kv_file := kv_file w; io_trace := io_trace w ++ [OpenRead] |}.

(** The world after the file was read, then opened for writing and
    [kv_store] dumped into it. *)
Definition after_rewrite `{Pickle} (w : World) (kv_store : Store) : World :=
  {| kv_file := Some (pickle_dump kv_store);
     io_trace := io_trace w ++ [OpenRead; OpenWrite; Dump (pickle_dump kv_store)] |}.

(** The events that change the file, and those of a trace. *)
Definition is_write (ev : IOEvent) : bool :=
  match ev with
  | OpenRead => false
  | OpenWrite | Dump _ => true
  end.

Definition writes (trace : list IOEvent) : list IOEvent :=
  filter (λ ev, is_write ev = true) trace.

(** ** What the disk backend returns, from what the in-memory one does *)

(** The key an operation is about. *)
Definition op_key (op : Op) : string :=
  match op with
  | OpCreate key _ | OpReplace key _ | OpDelete key | OpGet key => key
  end.

(** The outcome of the disk backend where the in-memory backend has the
    outcome [r]: the same, but for [KeyConflict], in whose place the disk
    backend raises the [TypeError] of the call of [KeyConflict]. *)
Definition disk_outcome (r : Result Value) : Result Value :=
  match r with
  | Raise (KeyConflict _ _ _) => Raise arity_error
  | _ => r
  end.

(** The outcomes of a sequence of calls, in order. *)
Fixpoint run_ops_results {B} `{ABCBackend B} (ops : list Op) (b : B)
  : list (Result Value) :=
  match ops with
  | [] => []
  | op :: ops => (apply_op op b).1 :: run_ops_results ops (apply_op op b).2
  end.

(** ** The write step when the file system refuses *)

(** What the file system does to the write of a call: nothing, or the open
    for writing fails, or the open goes through and the dump fails. *)
Inductive WriteFault : Type :=
  | NoFault
  | OpenFails
  | DumpFails.

#[global] Instance WriteFault_eq_dec : EqDecision WriteFault.
Proof. solve_decision. Defined.

(** [with open(self.filename, 'wb') as f: pickle.dump(kv_store, f)].  An
    open that fails raises and leaves the file alone.  An open that goes
    through has emptied the file; a dump that then fails raises with the
    file left so. *)
Definition write_under `{Pickle} (fault : WriteFault) (kv_store : Store) : IO unit :=
  match fault with
  | NoFault => io_step (run_steps (LocalDiskKvStore.write_path kv_store))
  | OpenFails => λ w, (Raise OSError, w)
  | DumpFails => λ w, (Raise OSError, open_wb w)
  end.

(** [_safe_op] under a fault of the file system. *)
Definition _safe_op_under `{Pickle} (fault : WriteFault)
    (kv_op : list byte → Result (Store * Value)) : IO Value :=
  open_file <- open_rb ;;
  result <- io_lift (kv_op open_file) ;;
  let '(kv_store, value) := result in
  _ <- write_under fault kv_store ;;
  io_ret value.

(** The four methods of the disk backend under a fault. *)
Definition disk_op_under `{Pickle} (fault : WriteFault) (op : Op) : IO Value :=
  match op with
  | OpCreate key value =>
      _ <- _safe_op_under fault (LocalDiskKvStore._create key value) ;;
      io_ret VNone
  | OpReplace key value => _safe_op_under fault (LocalDiskKvStore._replace key value)
  | OpDelete key => _safe_op_under fault (LocalDiskKvStore._delete key)
  | OpGet key => _safe_op_under fault (LocalDiskKvStore._get key)
  end.


(** The reads of the file and the dumps into it that a trace records. *)
Definition is_read (ev : IOEvent) : bool :=
  match ev with OpenRead => true | _ => false end.

Definition is_dump (ev : IOEvent) : bool :=
  match ev with Dump _ => true | _ => false end.

Definition reads (trace : list IOEvent) : nat :=
  length (filter (λ ev, is_read ev = true) trace).

Definition dumps (trace : list IOEvent) : nat :=
  length (filter (λ ev, is_dump ev = true) trace).

(** The calls of a list of outcomes that returned. *)
Definition has_returned (r : Result Value) : bool :=
  match r with Return _ => true | Raise _ => false end.

Definition returned (results : list (Result Value)) : nat :=
  length (filter (λ r, has_returned r = true) results).

(** * The service: [service/main.py] *)

(** ** JSON and the two schemas *)

(** What [request.get_json()] returns: scalars, as [Value]s, arrays and
    objects. *)
#[warnings="-register-all"]
Inductive Json : Type :=
  | JValue (v : Value)
  | JArray (items : list Json)
  | JObject (fields : list (string * Json)).

(** The types of JSON Schema. *)
Inductive JsonType : Type :=
  | TString | TNumber | TBoolean | TNull | TArray | TObject.

#[global] Instance JsonType_eq_dec : EqDecision JsonType.
Proof. solve_decision. Defined.

Definition json_type (instance : Json) : JsonType :=
  match instance with
  | JValue VNone => TNull
  | JValue (VStr _) => TString
  | JValue (VNum _) => TNumber
  | JValue (VBool _) => TBoolean
  | JArray _ => TArray
  | JObject _ => TObject
  end.

(** A schema of the shape of the two dict literals of the module: the
    type of the instance, the required properties, the types allowed for
    each declared property, and whether other properties are allowed. *)
Record Schema : Type := {
  schema_type : JsonType;
  required : list string;
  properties : list (string * list JsonType);
  additionalProperties : bool;
}.

Definition REQUEST_SCHEMA : Schema := {|
  schema_type := TObject;
  required := [];
  properties := [("value"%string, [TString; TNumber; TBoolean])];
  additionalProperties := false;
|}.

Definition RETURN_SCHEMA : Schema := {|
  schema_type := TObject;
  required := ["status"%string];
  properties := [("value"%string, [TString; TNumber; TBoolean; TNull]);
                 ("status"%string, [TNumber]);
                 ("error"%string, [TString])];
  additionalProperties := false;
|}.

(** The first entry of an association list under a name. *)
Fixpoint assoc {A} (l : list (string * A)) (name : string) : option A :=
  match l with
  | [] => None
  | (k, a) :: l => if decide (k = name) then Some a else assoc l name
  end.

(** A property of an object against the schema: a declared property must
    have one of its types, another one must be allowed. *)
Definition property_ok (schema : Schema) (field : string * Json) : bool :=
  match assoc (properties schema) field.1 with
  | Some types => bool_decide (json_type field.2 ∈ types)
  | None => additionalProperties schema
  end.

(** Whether [jsonschema.validate(instance, schema)] returns; it raises
    [ValidationError] otherwise. *)
Definition valid (instance : Json) (schema : Schema) : bool :=
  bool_decide (json_type instance = schema_type schema)
  && match instance with
     | JObject fields =>
         forallb (λ name, bool_decide (name ∈ fields.*1)) (required schema)
         && forallb (property_ok schema) fields
     | _ => true
     end.

(** ** Exceptions of the view *)

(** What the view function can raise: an exception of the backend or of a
    dict, [BadRequest] from [request.get_json()], [ValidationError] from
    [validate]. *)
Inductive ViewExn : Type :=
  | BackendError (e : Exn)
  | BadRequest
  | ValidationError.

Inductive Outcome (A : Type) : Type :=
  | Ok (a : A)
  | Err (e : ViewExn).
Arguments Ok {A} a.
Arguments Err {A} e.

(** [str(value)], as an f-string formats a value. *)
Definition py_str (value : Value) : string :=
  match value with
  | VNone => "None"
  | VStr s => s
  | VNum n => pretty n
  | VBool true => "True"
  | VBool false => "False"
  end.

(** [KeyConflict.__str__] *)
Definition KeyConflict__str__ (key : string) (old_value new_value : Value) : string :=
  "Key: " +:+ key +:+ ", Existing value: " +:+ py_str old_value
    +:+ ", Supplied value: " +:+ py_str new_value.

(** [str(e)] for the exceptions of the libraries: their text is not the
    module's. *)
Class LibraryStr : Type := library_str : ViewExn → string.

(** [str(e)] *)
Definition exn_str `{LibraryStr} (e : ViewExn) : string :=
  match e with
  | BackendError (KeyConflict key old_value new_value) =>
      KeyConflict__str__ key old_value new_value
  | _ => library_str e
  end.

(** ** Requests and responses *)

(** What the view reads of the request.  [get_json] is [None] when
    [request.get_json()] raises [BadRequest]. *)
Record Request : Type := {
  method : string;
  get_json : option Json;
  base_url : string;
}.

(** What the view returns: the body, a dict, the status and the headers. *)
Record Response : Type := {
  body : Store;
  http_status : Z;
  headers : option (list (string * string));
}.

Definition NO_ERROR : Z := 1000.
Definition KEY_NOT_PRESENT : Z := 3001.
Definition CREATE_KEY_ALREADY_PRESENT : Z := 3003.
Definition FAILED_TO_PARSE_REQUEST_BODY : Z := 3004.
Definition FAILED_TO_VALIDATE_REQUEST_BODY : Z := 3005.

(** [_build_response]: an argument that is [None] leaves no entry in the
    body. *)
Definition _build_response (http_status : Z) (key : option string) (value : Value)
    (api_status : option Z) (error : option string)
    (headers : option (list (string * string))) : Response :=
  let body : Store := [] in
  let body :=
    match key with Some key => dict_setitem body "key" (VStr key) | None => body end in
  let body :=
    if decide (value = VNone) then body else dict_setitem body "value" value in
  let body :=
    match api_status with
    | Some api_status => dict_setitem body "status" (VNum api_status)
    | None => body
    end in
  let body :=
    match error with Some error => dict_setitem body "error" (VStr error) | None => body end in
  {| body := body; http_status := http_status; headers := headers |}.

(** [body['value']] on what [get_json] returned: a dict has the entry or
    raises [KeyError]; nothing else is indexed by a string. *)
Definition body_getitem (body : Json) (name : string) : Outcome Json :=
  match body with
  | JObject fields =>
      match assoc fields name with
      | Some j => Ok j
      | None => Err (BackendError (KeyError name))
      end
  | _ => Err (BackendError (TypeError "indices must be integers"))
  end.

(** [_read_request_value].  The backends of the model take a [Value]: the
    last case, a value that is an array or an object, has no counterpart
    in the source, and [validate] excludes it. *)
Definition _read_request_value (request : Request) : Outcome Value :=
  match get_json request with
  | None => Err BadRequest
  | Some body =>
      if valid body REQUEST_SCHEMA then
        match body_getitem body "value" with
        | Ok (JValue value) => Ok value
        | Ok _ => Err ValidationError
        | Err e => Err e
        end
      else Err ValidationError
  end.

(** The call of a method of the backend from the view. *)
Definition call {B} (r : Result Value * B) : Outcome Value * B :=
  match r with
  | (Return v, backend) => (Ok v, backend)
  | (Raise e, backend) => (Err (BackendError e), backend)
  end.

(** [kv_operation]: the view.  It returns [None] for a method that is
    none of the four. *)
Definition kv_operation {B} `{ABCBackend B} (request : Request) (key : string)
    (backend : B) : Outcome (option Response) * B :=
  let api_status := NO_ERROR in
  if decide (method request = "GET"%string) then
    match call (get key backend) with
    | (Ok value, backend) =>
        (Ok (Some (_build_response 200 (Some key) value (Some api_status) None None)),
         backend)
    | (Err e, backend) => (Err e, backend)
    end
  else if decide (method request = "POST"%string) then
    match _read_request_value request with
    | Ok value =>
        match call (create key value backend) with
        | (Ok _, backend) =>
            (Ok (Some (_build_response 201 (Some key) value (Some api_status) None
                         (Some [("Location"%string, base_url request)]))),
             backend)
        | (Err e, backend) => (Err e, backend)
        end
    | Err e => (Err e, backend)
    end
  else if decide (method request = "PUT"%string) then
    match _read_request_value request with
    | Ok value =>
        match call (replace key value backend) with
        | (Ok old_value, backend) =>
            let status : Z := (if decide (old_value = VNone) then 201 else 200)%Z in
            (Ok (Some (_build_response status (Some key) value (Some api_status) None
                         (Some [("Location"%string, base_url request)]))),
             backend)
        | (Err e, backend) => (Err e, backend)
        end
    | Err e => (Err e, backend)
    end
  else if decide (method request = "DELETE"%string) then
    match call (delete key backend) with
    | (Ok old_value, backend) =>
        (Ok (Some (_build_response 200 (Some key) VNone (Some api_status) None None)),
         backend)
    | (Err e, backend) => (Err e, backend)
    end
  else (Ok None, backend).

(** The four error handlers. *)
Definition handle_non_json_request `{LibraryStr} (e : ViewExn) : Response :=
  _build_response 400 None VNone (Some FAILED_TO_PARSE_REQUEST_BODY)
    (Some (exn_str e)) None.

Definition handle_bad_json_request `{LibraryStr} (e : ViewExn) : Response :=
  _build_response 400 None VNone (Some FAILED_TO_VALIDATE_REQUEST_BODY)
    (Some (exn_str e)) None.

Definition handle_key_conflict `{LibraryStr} (e : ViewExn) : Response :=
  _build_response 409 None VNone (Some CREATE_KEY_ALREADY_PRESENT)
    (Some (exn_str e)) None.

Definition handle_key_missing `{LibraryStr} (e : ViewExn) : Response :=
  _build_response 404 None VNone (Some KEY_NOT_PRESENT) (Some (exn_str e)) None.

(** The handler registered for the class of an exception, if any:
    [BadRequest], [ValidationError], [KeyConflict] and [KeyError] have
    one. *)
Definition errorhandler `{LibraryStr} (e : ViewExn) : option Response :=
  match e with
  | BadRequest => Some (handle_non_json_request e)
  | ValidationError => Some (handle_bad_json_request e)
  | BackendError (KeyConflict _ _ _) => Some (handle_key_conflict e)
  | BackendError (KeyError _) => Some (handle_key_missing e)
  | BackendError _ => None
  end.

(** What becomes of a request: a response, of the view or of an error
    handler; no response, when the view returned [None]; or an exception
    for which the module registers no handler. *)
Inductive Reply : Type :=
  | Responded (response : Response)
  | NoResponse
  | Unhandled (e : ViewExn).

(** The view, then the error handlers. *)
Definition dispatch {B} `{ABCBackend B} `{LibraryStr} (request : Request)
    (key : string) (backend : B) : Reply * B :=
  match kv_operation request key backend with
  | (Ok (Some response), backend) => (Responded response, backend)
  | (Ok None, backend) => (NoResponse, backend)
  | (Err e, backend) =>
      (match errorhandler e with
       | Some response => Responded response
       | None => Unhandled e
       end, backend)
  end.

(** One request after the other on the same backend. *)
Definition serve {B} `{ABCBackend B} `{LibraryStr}
    (requests : list (Request * string)) (backend : B) : B :=
  foldl (λ backend rk, (dispatch rk.1 rk.2 backend).2) backend requests.

(** The body of a response as the JSON object it is. *)
Definition body_json (response : Response) : Json :=
  JObject (prod_map id JValue <$> body response).

(** No null is stored in the dict. *)
Definition null_free (d : Store) : Prop :=
  ∀ key, dict_get d key ≠ Some VNone.

(** ** Start-up *)

Definition DEFAULT_BACKEND_TYPE : string := "local_disk".
Definition DEFAULT_PORT : Z := 8080.
Definition DEFAULT_HOST : string := "127.0.0.1".

(** [os.environ.get(name, default)] *)
Definition environ_get (environ : list (string * string)) (name : string)
    (default : Value) : Value :=
  match assoc environ name with
  | Some s => VStr s
  | None => default
  end.

(** The settings of the main block: the address, the port and the type of
    the backend.  [sys.argv[i]] raises [IndexError] when there is no such
    argument, and the handler of the [try] then sets all three from the
    environment. *)
Definition main_settings (argv : list string) (environ : list (string * string))
  : Value * Value * Value :=
  match argv !! 1, argv !! 2, argv !! 3 with
  | Some ip, Some port, Some kv_backend_type =>
      (VStr ip, VStr port, VStr kv_backend_type)
  | _, _, _ =>
      (environ_get environ "KV_SERVICE_IP" (VStr DEFAULT_HOST),
       environ_get environ "KV_SERVICE_PORT" (VNum DEFAULT_PORT),
       environ_get environ "KV_SERVICE_BACKEND" (VStr DEFAULT_BACKEND_TYPE))
  end.

(** ** A reference serializer *)

(** An instance of [Pickle] that satisfies its laws: a protocol byte, then
    the binary digits of the code of the dict, one per byte. *)
Module RefPickle.

Definition Value_to_sum (v : Value) : unit + string + Z + bool :=
  match v with
  | VNone => inl (inl (inl tt))
  | VStr s => inl (inl (inr s))
  | VNum n => inl (inr n)
  | VBool b => inr b
  end.

Definition Value_of_sum (x : unit + string + Z + bool) : Value :=
  match x with
  | inl (inl (inl _)) => VNone
  | inl (inl (inr s)) => VStr s
  | inl (inr n) => VNum n
  | inr b => VBool b
  end.

#[global] Instance Value_countable : Countable Value.
Proof.
  refine (inj_countable' Value_to_sum Value_of_sum _).
  intros []; reflexivity.
Defined.

Fixpoint digits (p : positive) : list byte :=
  match p with
  | xH => []
  | xO p => x30 :: digits p
  | xI p => x31 :: digits p
  end.

Fixpoint undigits (data : list byte) : option positive :=
  match data with
  | [] => Some xH
  | x30 :: data => xO <$> undigits data
  | x31 :: data => xI <$> undigits data
  | _ => None
  end.

Definition dump (d : Store) : list byte := x80 :: digits (encode d).

Definition load (data : list byte) : option Store :=
  match data with
  | x80 :: data => undigits data ≫= decode
  | _ => None
  end.

Definition pickle : Pickle := {| pickle_dump := dump; pickle_load := load |}.

End RefPickle.

(** ** Example states *)

(** The dict [{'foo': 'bar'}], the in-memory backend that holds it, and a
    world in which [kv_file] holds its pickle. *)
Definition foo_bar : Store := [("foo"%string, VStr "bar")].

Definition foo_bar_memory : InMemoryKvStore.t := InMemoryKvStore.Build foo_bar.

(** The dict [{'foo': None}]: a null is stored under the key. *)
Definition foo_null : Store := [("foo"%string, VNone)].

(** The dict [{'foo': 'bar', 'qux': 1}] and the in-memory backend that
    holds it. *)
Definition foo_qux : Store := [("foo"%string, VStr "bar"); ("qux"%string, VNum 1)].

Definition foo_qux_memory : InMemoryKvStore.t := InMemoryKvStore.Build foo_qux.

Definition world_of `{Pickle} (d : Store) : World :=
  {| kv_file := Some (pickle_dump d); io_trace := [] |}.

(** A world without the file, and one in which the file holds no pickle. *)
Definition no_file : World := {| kv_file := None; io_trace := [] |}.

Definition corrupt_file : World := {| kv_file := Some [x00]; io_trace := [] |}.

(** Requests on [/api/v1/kv/foo], and a text for the exceptions of the
    libraries. *)
Definition request_of (method : string) (get_json : option Json) : Request :=
  {| method := method; get_json := get_json;
     base_url := "http://localhost:8080/api/v1/kv/foo" |}.

Definition value_body (value : Value) : option Json :=
  Some (JObject [("value"%string, JValue value)]).

Definition no_text : LibraryStr := λ _, ""%string.

(** * Properties *)

(** ** The dict *)

Section Dict.
Implicit Types (d : Store) (key k : string) (value v : Value).

Lemma dict_contains_get d key :
  dict_contains d key = true ↔ is_Some (dict_get d key).
Proof.
  unfold dict_contains. destruct (dict_get d key) as [v|]; split.
  - by eexists.
  - done.
  - done.
  - by intros [v Hv].
Qed.

Lemma dict_contains_Some d key v :
  dict_get d key = Some v → dict_contains d key = true.
Proof. unfold dict_contains. by intros ->. Qed.

Lemma dict_contains_None d key :
  dict_get d key = None → dict_contains d key = false.
Proof. unfold dict_contains. by intros ->. Qed.

Lemma dict_getitem_Some d key v :
  dict_get d key = Some v → dict_getitem d key = Return v.
Proof. unfold dict_getitem. by intros ->. Qed.

Lemma dict_getitem_None d key :
  dict_get d key = None → dict_getitem d key = Raise (KeyError key).
Proof. unfold dict_getitem. by intros ->. Qed.

Lemma dict_get_setitem d key value k :
  dict_get (dict_setitem d key value) k =
  if decide (key = k) then Some value else dict_get d k.
Proof.
  induction d as [|[k' v'] d IH]; simpl.
  - by repeat case_decide.
  - repeat (case_decide; simpl; subst); try done; by rewrite IH, ?decide_True, ?decide_False.
Qed.

Lemma dict_get_setitem_eq d key value :
  dict_get (dict_setitem d key value) key = Some value.
Proof. by rewrite dict_get_setitem, decide_True. Qed.

Lemma dict_get_remove d key k :
  dict_get (dict_remove d key) k =
  if decide (key = k) then None else dict_get d k.
Proof.
  induction d as [|[k' v'] d IH]; simpl.
  - by case_decide.
  - destruct (decide (k' = key)) as [->|Hne]; simpl.
    + rewrite IH. repeat case_decide; congruence.
    + rewrite IH. repeat case_decide; congruence.
Qed.

Lemma dict_get_remove_eq d key : dict_get (dict_remove d key) key = None.
Proof. by rewrite dict_get_remove, decide_True. Qed.

Lemma dict_remove_absent d key : dict_get d key = None → dict_remove d key = d.
Proof.
  induction d as [|[k' v'] d IH]; simpl; [done|].
  case_decide; [done|]. intros Hg. by rewrite IH.
Qed.

Lemma dict_pop_Some d key v :
  dict_get d key = Some v → dict_pop d key = (Return v, dict_remove d key).
Proof. unfold dict_pop. by intros ->. Qed.

Lemma dict_pop_None d key :
  dict_get d key = None → dict_pop d key = (Raise (KeyError key), d).
Proof. unfold dict_pop. by intros ->. Qed.

(** The keys of a dict after an assignment or a removal. *)
Lemma dict_keys_setitem d key value k :
  k ∈ (dict_setitem d key value).*1 ↔ k = key ∨ k ∈ d.*1.
Proof.
  induction d as [|[k' v'] d IH]; simpl.
  - rewrite list_elem_of_singleton, elem_of_nil. tauto.
  - case_decide; simpl; subst; rewrite !elem_of_cons; [tauto|].
    rewrite IH. tauto.
Qed.

Lemma dict_keys_remove d key k :
  k ∈ (dict_remove d key).*1 → k ∈ d.*1.
Proof.
  induction d as [|[k' v'] d IH]; simpl; [done|].
  case_decide; simpl; rewrite !elem_of_cons; tauto.
Qed.

Lemma dict_setitem_NoDup d key value :
  NoDup d.*1 → NoDup (dict_setitem d key value).*1.
Proof.
  induction d as [|[k' v'] d IH]; simpl; intros Hnd.
  - apply NoDup_singleton.
  - apply NoDup_cons in Hnd as [Hk' Hnd].
    case_decide; simpl; subst; apply NoDup_cons; split; auto.
    rewrite dict_keys_setitem. intros [->|Hin]; done.
Qed.

Lemma dict_remove_NoDup d key : NoDup d.*1 → NoDup (dict_remove d key).*1.
Proof.
  induction d as [|[k' v'] d IH]; simpl; intros Hnd; [done|].
  apply NoDup_cons in Hnd as [Hk' Hnd].
  case_decide; simpl; auto.
  apply NoDup_cons; split; auto.
  intros Hin. by apply Hk', (dict_keys_remove _ key).
Qed.

Lemma dict_count_absent d key : key ∉ d.*1 → dict_count d key = 0.
Proof.
  unfold dict_count. induction d as [|[k' v'] d IH]; simpl; [done|].
  intros Hnin. apply not_elem_of_cons in Hnin as [Hne Hnin].
  rewrite filter_cons_False by (simpl; congruence). auto.
Qed.

Lemma dict_count_NoDup d key : NoDup d.*1 → dict_count d key ≤ 1.
Proof.
  unfold dict_count. induction d as [|[k' v'] d IH]; simpl; intros Hnd; [lia|].
  apply NoDup_cons in Hnd as [Hk' Hnd].
  destruct (decide (k' = key)) as [->|Hne].
  - rewrite filter_cons_True by done. simpl.
    pose proof (dict_count_absent d key Hk') as Hc. unfold dict_count in Hc.
    rewrite Hc. lia.
  - rewrite filter_cons_False by done. auto.
Qed.

End Dict.

(** ** The reference serializer satisfies the laws of [pickle] *)

Lemma RefPickle_undigits_digits (p : positive) :
  RefPickle.undigits (RefPickle.digits p) = Some p.
Proof. induction p as [p IH|p IH|]; simpl; by rewrite ?IH. Qed.

Lemma RefPickle_roundtrip : @pickle_roundtrip RefPickle.pickle.
Proof.
  intros d. simpl. unfold RefPickle.load, RefPickle.dump.
  rewrite RefPickle_undigits_digits. simpl. apply decode_encode.
Qed.

Lemma RefPickle_nonempty : @pickle_nonempty RefPickle.pickle.
Proof. reflexivity. Qed.

(** ** The in-memory backend, case by case *)

Section Memory.
Import InMemoryKvStore.
Implicit Types (self : InMemoryKvStore.t) (key : string) (value v : Value).

Lemma memory_create_absent self key value :
  dict_get (kv_store self) key = None →
  create key value self =
    (Return VNone, {| kv_store := dict_setitem (kv_store self) key value |}).
Proof. intros Hg. unfold create. by rewrite (dict_contains_None _ _ Hg). Qed.

Lemma memory_create_present self key value v :
  dict_get (kv_store self) key = Some v →
  create key value self = (Raise (KeyConflict key v value), self).
Proof.
  intros Hg. unfold create.
  by rewrite (dict_contains_Some _ _ _ Hg), (dict_getitem_Some _ _ _ Hg).
Qed.

Lemma memory_replace self key value :
  replace key value self =
    (Return (default VNone (dict_get (kv_store self) key)),
     {| kv_store := dict_setitem (kv_store self) key value |}).
Proof.
  unfold replace, dict_contains, dict_getitem.
  by destruct (dict_get (kv_store self) key).
Qed.

Lemma memory_delete_present self key v :
  dict_get (kv_store self) key = Some v →
  delete key self = (Return v, {| kv_store := dict_remove (kv_store self) key |}).
Proof. intros Hg. unfold delete. by rewrite (dict_pop_Some _ _ _ Hg). Qed.

Lemma memory_delete_absent self key :
  dict_get (kv_store self) key = None →
  delete key self = (Raise (KeyError key), self).
Proof.
  intros Hg. unfold delete. rewrite (dict_pop_None _ _ Hg). by destruct self.
Qed.

Lemma memory_get_present self key v :
  dict_get (kv_store self) key = Some v → get key self = (Return v, self).
Proof. intros Hg. unfold get. by rewrite (dict_getitem_Some _ _ _ Hg). Qed.

Lemma memory_get_absent self key :
  dict_get (kv_store self) key = None →
  get key self = (Raise (KeyError key), self).
Proof. intros Hg. unfold get. by rewrite (dict_getitem_None _ _ Hg). Qed.

End Memory.

(** ** The disk backend, case by case *)

Section Disk.
Context `{Pickle}.
Import LocalDiskKvStore.
Implicit Types (w : World) (key : string) (value v : Value)
  (data : list byte) (d : Store).

Lemma load_Some data d : pickle_load data = Some d → load data = Return d.
Proof. unfold load. by intros ->. Qed.

Lemma load_None data : pickle_load data = None → load data = Raise UnpicklingError.
Proof. unfold load. by intros ->. Qed.

(** The three ways through [_safe_op]. *)
Lemma safe_op_no_file kv_op w :
  kv_file w = None → _safe_op kv_op w = (Raise FileNotFoundError, w).
Proof. intros Hf. unfold _safe_op, io_bind, open_rb. by rewrite Hf. Qed.

Lemma safe_op_Raise kv_op w data e :
  kv_file w = Some data → kv_op data = Raise e →
  _safe_op kv_op w = (Raise e, after_read w).
Proof.
  intros Hf Hop. unfold _safe_op, io_bind, open_rb, io_lift, after_read.
  by rewrite Hf, Hop.
Qed.

Lemma safe_op_Return kv_op w data d v :
  kv_file w = Some data → kv_op data = Return (d, v) →
  _safe_op kv_op w = (Return v, after_rewrite w d).
Proof.
  intros Hf Hop. unfold _safe_op, io_bind, open_rb, io_lift.
  rewrite Hf, Hop. unfold io_step, io_ret, after_rewrite. simpl.
  unfold file_write, open_wb. simpl. by rewrite <- !app_assoc.
Qed.

Lemma disk_create_absent w key value data d :
  kv_file w = Some data → pickle_load data = Some d → dict_get d key = None →
  create key value w = (Return VNone, after_rewrite w (dict_setitem d key value)).
Proof.
  intros Hf Hl Hg. unfold create, io_bind.
  rewrite (safe_op_Return _ w data (dict_setitem d key value) value); [done..|].
  unfold _create. rewrite (load_Some _ _ Hl). simpl.
  by rewrite (dict_contains_None _ _ Hg).
Qed.

(** The key is there: [KeyConflict] is called with two arguments, and
    the call raises [TypeError]. *)
Lemma disk_create_present w key value data d v :
  kv_file w = Some data → pickle_load data = Some d → dict_get d key = Some v →
  create key value w = (Raise arity_error, after_read w).
Proof.
  intros Hf Hl Hg. unfold create, io_bind.
  rewrite (safe_op_Raise _ w data arity_error); [done..|].
  unfold _create. rewrite (load_Some _ _ Hl). simpl.
  by rewrite (dict_contains_Some _ _ _ Hg), (dict_getitem_Some _ _ _ Hg).
Qed.

Lemma disk_replace w key value data d :
  kv_file w = Some data → pickle_load data = Some d →
  replace key value w =
    (Return (default VNone (dict_get d key)),
     after_rewrite w (dict_setitem d key value)).
Proof.
  intros Hf Hl. unfold replace. apply (safe_op_Return _ w data); [done|].
  unfold _replace, dict_contains, dict_getitem. rewrite (load_Some _ _ Hl).
  simpl. by destruct (dict_get d key).
Qed.

Lemma disk_delete_present w key data d v :
  kv_file w = Some data → pickle_load data = Some d → dict_get d key = Some v →
  delete key w = (Return v, after_rewrite w (dict_remove d key)).
Proof.
  intros Hf Hl Hg. unfold delete. apply (safe_op_Return _ w data); [done|].
  unfold _delete. rewrite (load_Some _ _ Hl). simpl.
  by rewrite (dict_pop_Some _ _ _ Hg).
Qed.

Lemma disk_delete_absent w key data d :
  kv_file w = Some data → pickle_load data = Some d → dict_get d key = None →
  delete key w = (Raise (KeyError key), after_read w).
Proof.
  intros Hf Hl Hg. unfold delete. apply (safe_op_Raise _ w data); [done|].
  unfold _delete. rewrite (load_Some _ _ Hl). simpl.
  by rewrite (dict_pop_None _ _ Hg).
Qed.

Lemma disk_get_present w key data d v :
  kv_file w = Some data → pickle_load data = Some d → dict_get d key = Some v →
  get key w = (Return v, after_rewrite w d).
Proof.
  intros Hf Hl Hg. unfold get. apply (safe_op_Return _ w data); [done|].
  unfold _get. rewrite (load_Some _ _ Hl). simpl.
  by rewrite (dict_getitem_Some _ _ _ Hg).
Qed.

Lemma disk_get_absent w key data d :
  kv_file w = Some data → pickle_load data = Some d → dict_get d key = None →
  get key w = (Raise (KeyError key), after_read w).
Proof.
  intros Hf Hl Hg. unfold get. apply (safe_op_Raise _ w data); [done|].
  unfold _get. rewrite (load_Some _ _ Hl). simpl.
  by rewrite (dict_getitem_None _ _ Hg).
Qed.

(** A file that is not a pickle, or no file at all. *)
Lemma disk_op_corrupt op w data :
  kv_file w = Some data → pickle_load data = None →
  apply_op op w = (Raise UnpicklingError, after_read w).
Proof.
  intros Hf Hl. destruct op as [key value|key value|key|key]; simpl;
    unfold create, replace, delete, get, io_bind;
    rewrite (safe_op_Raise _ w data UnpicklingError); try done;
    unfold _create, _replace, _delete, _get; by rewrite (load_None _ Hl).
Qed.

Lemma disk_op_no_file op w :
  kv_file w = None → apply_op op w = (Raise FileNotFoundError, w).
Proof.
  intros Hf. destruct op as [key value|key value|key|key]; simpl;
    unfold create, replace, delete, get, io_bind;
    by rewrite (safe_op_no_file _ w Hf).
Qed.

(** What a read finds after each of the two outcomes. *)
Lemma read_store_after_read w : read_store (after_read w) = read_store w.
Proof. reflexivity. Qed.

Lemma read_store_after_rewrite w d :
  pickle_roundtrip → read_store (after_rewrite w d) = Some d.
Proof. intros Hrt. unfold read_store. simpl. apply Hrt. Qed.

Lemma read_store_Some w d :
  read_store w = Some d ↔ ∃ data, kv_file w = Some data ∧ pickle_load data = Some d.
Proof.
  unfold read_store. destruct (kv_file w) as [data|]; split.
  - intros Hl. by exists data.
  - by intros (? & [= <-] & Hl).
  - done.
  - by intros (? & [=] & _).
Qed.

End Disk.

(** ** The two backends, side by side *)

Section Simulation.
Context `{Pickle}.
Implicit Types (w : World) (self : InMemoryKvStore.t) (key : string)
  (value v : Value) (data : list byte) (d : Store).

(** On a file that holds the dict [d], the disk backend does what the
    in-memory backend does on [d], but for the exception of a [create]
    on a key that is there. *)
Lemma disk_vs_memory op w data d :
  kv_file w = Some data → pickle_load data = Some d →
  match apply_op op (InMemoryKvStore.Build d) with
  | (Return v, self') =>
      apply_op op w = (Return v, after_rewrite w (InMemoryKvStore.kv_store self'))
  | (Raise (KeyConflict _ _ _), _) =>
      apply_op op w = (Raise arity_error, after_read w)
  | (Raise e, _) => apply_op op w = (Raise e, after_read w)
  end.
Proof.
  intros Hf Hl. destruct op as [key value|key value|key|key]; simpl.
  - destruct (dict_get d key) as [v|] eqn:Hg.
    + rewrite (memory_create_present _ _ _ v) by done.
      by apply (disk_create_present _ _ _ data d v).
    + rewrite memory_create_absent by done.
      by apply (disk_create_absent _ _ _ data).
  - rewrite memory_replace. by apply (disk_replace _ _ _ data).
  - destruct (dict_get d key) as [v|] eqn:Hg.
    + rewrite (memory_delete_present _ _ v) by done.
      by apply (disk_delete_present _ _ data).
    + rewrite memory_delete_absent by done.
      by apply (disk_delete_absent _ _ data d).
  - unfold dict_getitem. destruct (dict_get d key) as [v|] eqn:Hg.
    + by apply (disk_get_present _ _ data).
    + by apply (disk_get_absent _ _ data d).
Qed.

(** A call that raises leaves the in-memory backend as it was. *)
Lemma memory_op_Raise op self e self' :
  apply_op op self = (Raise e, self') → self' = self.
Proof.
  destruct op as [key value|key value|key|key]; simpl.
  - destruct (dict_get (InMemoryKvStore.kv_store self) key) as [v|] eqn:Hg.
    + rewrite (memory_create_present _ _ _ v) by done. congruence.
    + rewrite memory_create_absent by done. congruence.
  - rewrite memory_replace. congruence.
  - destruct (dict_get (InMemoryKvStore.kv_store self) key) as [v|] eqn:Hg.
    + rewrite (memory_delete_present _ _ v) by done. congruence.
    + rewrite memory_delete_absent by done. congruence.
  - unfold InMemoryKvStore.get. congruence.
Qed.

(** The keys of the in-memory backend stay distinct. *)
Lemma memory_op_NoDup op self :
  NoDup (InMemoryKvStore.kv_store self).*1 →
  NoDup (InMemoryKvStore.kv_store (apply_op op self).2).*1.
Proof.
  intros Hnd. destruct op as [key value|key value|key|key]; simpl.
  - destruct (dict_get (InMemoryKvStore.kv_store self) key) as [v|] eqn:Hg.
    + by rewrite (memory_create_present _ _ _ v).
    + rewrite memory_create_absent by done. by apply dict_setitem_NoDup.
  - rewrite memory_replace. by apply dict_setitem_NoDup.
  - destruct (dict_get (InMemoryKvStore.kv_store self) key) as [v|] eqn:Hg.
    + rewrite (memory_delete_present _ _ v) by done. by apply dict_remove_NoDup.
    + by rewrite memory_delete_absent.
  - done.
Qed.

Lemma writes_after_read w : writes (io_trace (after_read w)) = writes (io_trace w).
Proof.
  unfold writes, after_read. simpl. rewrite filter_app.
  rewrite filter_cons_False by done. by rewrite filter_nil, app_nil_r.
Qed.

(** A call that raises leaves the file as it was and writes nothing. *)
Lemma disk_op_Raise op w e w' :
  apply_op op w = (Raise e, w') →
  kv_file w' = kv_file w ∧ writes (io_trace w') = writes (io_trace w).
Proof.
  destruct (kv_file w) as [data|] eqn:Hf.
  - destruct (pickle_load data) as [d|] eqn:Hl.
    + pose proof (disk_vs_memory op w data d Hf Hl) as Hsim.
      destruct (apply_op op (InMemoryKvStore.Build d)) as [[v|e'] self'].
      * rewrite Hsim. congruence.
      * assert (∃ e'', apply_op op w = (Raise e'', after_read w)) as [e'' He]
          by (destruct e'; eauto).
        rewrite He. intros [= _ <-]. split; [by rewrite <- Hf | apply writes_after_read].
    + rewrite (disk_op_corrupt op w data Hf Hl). intros [= _ <-].
      split; [by rewrite <- Hf | apply writes_after_read].
  - rewrite (disk_op_no_file op w Hf). intros [= _ <-]. by rewrite Hf.
Qed.

End Simulation.

(** ** Sequences of calls *)

Section Sequences.
Context `{Pickle}.
Implicit Types (w : World) (self : InMemoryKvStore.t) (d : Store).

Lemma run_ops_cons {B} `{ABCBackend B} op ops (b : B) :
  run_ops (op :: ops) b = run_ops ops (apply_op op b).2.
Proof. reflexivity. Qed.

Lemma memory_run_ops_NoDup ops self :
  NoDup (InMemoryKvStore.kv_store self).*1 →
  NoDup (InMemoryKvStore.kv_store (run_ops ops self)).*1.
Proof.
  revert self. induction ops as [|op ops IH]; intros self Hnd; [done|].
  rewrite run_ops_cons. by apply IH, memory_op_NoDup.
Qed.

(** After a call, the file decodes to the dict the in-memory backend holds
    after the same call. *)
Lemma disk_op_store op w d :
  pickle_roundtrip → read_store w = Some d →
  read_store (apply_op op w).2
    = Some (InMemoryKvStore.kv_store (apply_op op (InMemoryKvStore.Build d)).2).
Proof.
  intros Hrt (data & Hf & Hl)%read_store_Some.
  pose proof (disk_vs_memory op w data d Hf Hl) as Hsim.
  destruct (apply_op op (InMemoryKvStore.Build d)) as [[v|e] self'] eqn:Hm.
  - rewrite Hsim. simpl. by apply read_store_after_rewrite.
  - apply memory_op_Raise in Hm as ->.
    assert (∃ e', apply_op op w = (Raise e', after_read w)) as [e' ->]
      by (destruct e; eauto).
    simpl. rewrite read_store_after_read. apply read_store_Some. eauto.
Qed.

Lemma disk_run_ops_store ops w d :
  pickle_roundtrip → read_store w = Some d →
  read_store (run_ops ops w)
    = Some (InMemoryKvStore.kv_store (run_ops ops (InMemoryKvStore.Build d))).
Proof.
  intros Hrt. revert w d. induction ops as [|op ops IH]; intros w d Hr; [done|].
  rewrite !run_ops_cons.
  rewrite (IH _ _ (disk_op_store op w d Hrt Hr)). by destruct (apply_op op _).2.
Qed.

(** The constructor of the disk backend. *)
Lemma disk_init_existing w data :
  kv_file w = Some data → LocalDiskKvStore.__init__ w = w.
Proof. intros Hf. unfold LocalDiskKvStore.__init__. by rewrite Hf. Qed.

Lemma disk_init_fresh w :
  kv_file w = None → kv_file (LocalDiskKvStore.__init__ w) = Some (pickle_dump []).
Proof. intros Hf. unfold LocalDiskKvStore.__init__. by rewrite Hf. Qed.

End Sequences.

(** ** Calls under a fault of the file system *)

Section Faults.
Context `{Pickle}.
Implicit Types (w : World) (self : InMemoryKvStore.t) (op : Op)
  (fault : WriteFault) (d : Store).

(** A call under a fault, from the call without: a call that raises
    before the write is the same; a call that would have returned raises
    [OSError], with the file as it was after the read when the open
    fails, and emptied when the dump fails. *)
Lemma disk_op_under_spec fault op w :
  disk_op_under fault op w =
    match apply_op op w with
    | (Return v, w') =>
        match fault with
        | NoFault => (Return v, w')
        | OpenFails => (Raise OSError, after_read w)
        | DumpFails => (Raise OSError, open_wb (after_read w))
        end
    | (Raise e, w') => (Raise e, w')
    end.
Proof.
  destruct op as [key value|key value|key|key]; simpl;
    unfold LocalDiskKvStore.create, LocalDiskKvStore.replace,
      LocalDiskKvStore.delete, LocalDiskKvStore.get,
      LocalDiskKvStore._safe_op, _safe_op_under, io_bind, open_rb, io_lift,
      after_read;
    (destruct (kv_file w) as [data|]; [|done]).
  - by destruct (LocalDiskKvStore._create key value data) as [[d v]|e], fault.
  - by destruct (LocalDiskKvStore._replace key value data) as [[d v]|e], fault.
  - by destruct (LocalDiskKvStore._delete key data) as [[d v]|e], fault.
  - by destruct (LocalDiskKvStore._get key data) as [[d v]|e], fault.
Qed.

Lemma disk_op_under_NoFault op w : disk_op_under NoFault op w = apply_op op w.
Proof.
  rewrite disk_op_under_spec. by destruct (apply_op op w) as [[v|e] w'].
Qed.

(** What the in-memory backend raises: [KeyConflict] or [KeyError]. *)
Lemma memory_op_exn op self e self' :
  apply_op op self = (Raise e, self') →
  (∃ key old_value new_value, e = KeyConflict key old_value new_value)
  ∨ (∃ key, e = KeyError key).
Proof.
  destruct op as [key value|key value|key|key]; simpl.
  - destruct (dict_get (InMemoryKvStore.kv_store self) key) as [v|] eqn:Hg.
    + rewrite (memory_create_present self key value v Hg). intros [= <- _]. eauto.
    + by rewrite (memory_create_absent self key value Hg).
  - by rewrite memory_replace.
  - destruct (dict_get (InMemoryKvStore.kv_store self) key) as [v|] eqn:Hg.
    + by rewrite (memory_delete_present self key v Hg).
    + rewrite (memory_delete_absent self key Hg). intros [= <- _]. eauto.
  - unfold InMemoryKvStore.get, dict_getitem.
    destruct (dict_get (InMemoryKvStore.kv_store self) key); [done|].
    intros [= <- _]. eauto.
Qed.

(** What the disk backend raises of itself: never [OSError], and on a
    file that decodes neither the error of the decoder nor
    [FileNotFoundError]. *)
Lemma disk_op_not_OSError op w w' : apply_op op w ≠ (Raise OSError, w').
Proof.
  destruct (kv_file w) as [data|] eqn:Hf.
  - destruct (pickle_load data) as [d|] eqn:Hl.
    + pose proof (disk_vs_memory op w data d Hf Hl) as Hsim.
      destruct (apply_op op (InMemoryKvStore.Build d)) as [[v|e] self'] eqn:Hm.
      * by rewrite Hsim.
      * apply memory_op_exn in Hm as [(? & ? & ? & ->)|[? ->]]; by rewrite Hsim.
    + by rewrite (disk_op_corrupt op w data Hf Hl).
  - by rewrite (disk_op_no_file op w Hf).
Qed.


Lemma writes_open_wb_after_read w :
  writes (io_trace (open_wb (after_read w))) = writes (io_trace w) ++ [OpenWrite].
Proof.
  unfold writes, open_wb, after_read. simpl. rewrite !filter_app.
  rewrite (filter_cons_False _ OpenRead) by done.
  rewrite (filter_cons_True _ OpenWrite) by done.
  by rewrite !filter_nil, app_nil_r.
Qed.

(** A call under a fault that raises: the file is as it was, unless the
    dump failed, and then it is empty. *)
Lemma disk_op_under_Raise fault op w e w' :
  disk_op_under fault op w = (Raise e, w') →
  (fault ≠ DumpFails ∨ e ≠ OSError →
     kv_file w' = kv_file w ∧ writes (io_trace w') = writes (io_trace w))
  ∧ (fault = DumpFails → e = OSError →
     kv_file w' = Some [] ∧ writes (io_trace w') = writes (io_trace w) ++ [OpenWrite]).
Proof.
  rewrite disk_op_under_spec.
  destruct (apply_op op w) as [[v|e0] w0] eqn:Ha.
  - destruct fault; [done| |]; intros [= <- <-].
    + split; [|done]. intros _. split; [done | apply writes_after_read].
    + split; [by intros [?|?]|]. intros _ _.
      split; [done | apply writes_open_wb_after_read].
  - intros [= <- <-]. split.
    + intros _. by apply (disk_op_Raise op w e0).
    + intros _ ->. by destruct (disk_op_not_OSError op w w0).
Qed.



End Faults.

(** ** The claims *)

Section Contract.
Context `{Pickle}.
Implicit Types (w : World) (self : InMemoryKvStore.t) (key : string)
  (value v : Value) (data : list byte) (d : Store) (op : Op).

(** C3, as the code has it.  A call that fails before the write leaves
    everything as it was.  In memory, the backend after a call that raised
    is the backend before it.  On disk, whatever the file system does to
    the write, the file after a call that raised holds what it held
    before and the call made no write to it, in all cases but one: when
    the dump fails after the file was opened for writing, the call raises
    with the file emptied. *)
Theorem C3_failure_before_the_dump_changes_nothing :
  (∀ op self e self', apply_op op self = (Raise e, self') → self' = self)
  ∧ (∀ fault op w e w', disk_op_under fault op w = (Raise e, w') →
       (fault ≠ DumpFails ∨ e ≠ OSError →
          kv_file w' = kv_file w ∧ writes (io_trace w') = writes (io_trace w))
       ∧ (fault = DumpFails → e = OSError →
          kv_file w' = Some []
          ∧ writes (io_trace w') = writes (io_trace w) ++ [OpenWrite]))
  ∧ (∀ op w, disk_op_under NoFault op w = apply_op op w).
Proof.
  split; [apply memory_op_Raise|].
  split; [apply disk_op_under_Raise | apply disk_op_under_NoFault].
Qed.

(** C4, as the code has it.  [replace] on a key that is not there succeeds,
    stores the value and returns [None]; on a key that is there it returns
    the value that was there, which differs from [None] whenever that
    value is not null.  A second [replace] then returns the first value,
    and [get] the second.  This holds in memory and on disk. *)
Theorem C4_replace_reports_previous_value key v1 v2 :
  pickle_roundtrip →
  (∀ self, dict_get (InMemoryKvStore.kv_store self) key = None →
     let r1 := InMemoryKvStore.replace key v1 self in
     let r2 := InMemoryKvStore.replace key v2 r1.2 in
     r1.1 = Return VNone
     ∧ dict_get (InMemoryKvStore.kv_store r1.2) key = Some v1
     ∧ r2.1 = Return v1
     ∧ (InMemoryKvStore.get key r2.2).1 = Return v2)
  ∧ (∀ w d, read_store w = Some d → dict_get d key = None →
     let r1 := LocalDiskKvStore.replace key v1 w in
     let r2 := LocalDiskKvStore.replace key v2 r1.2 in
     r1.1 = Return VNone
     ∧ (∃ d1, read_store r1.2 = Some d1 ∧ dict_get d1 key = Some v1)
     ∧ r2.1 = Return v1
     ∧ (LocalDiskKvStore.get key r2.2).1 = Return v2)
  ∧ (∀ self old, dict_get (InMemoryKvStore.kv_store self) key = Some old →
     (InMemoryKvStore.replace key v1 self).1 = Return old
     ∧ (old ≠ VNone → (InMemoryKvStore.replace key v1 self).1 ≠ Return VNone))
  ∧ (∀ w d old, read_store w = Some d → dict_get d key = Some old →
     (LocalDiskKvStore.replace key v1 w).1 = Return old
     ∧ (old ≠ VNone → (LocalDiskKvStore.replace key v1 w).1 ≠ Return VNone)).
Proof.
  intros Hrt. split; [|split; [|split]].
  - intros self Hg. rewrite memory_replace. simpl. rewrite memory_replace.
    simpl. unfold dict_getitem. by rewrite Hg, !dict_get_setitem_eq.
  - intros w d (data & Hf & Hl)%read_store_Some Hg.
    rewrite (disk_replace w key v1 data d Hf Hl). simpl.
    set (d1 := dict_setitem d key v1). set (w1 := after_rewrite w d1).
    rewrite (disk_replace w1 key v2 (pickle_dump d1) d1 eq_refl (Hrt d1)). simpl.
    set (d2 := dict_setitem d1 key v2). set (w2 := after_rewrite w1 d2).
    rewrite (disk_get_present w2 key (pickle_dump d2) d2 v2 eq_refl (Hrt d2)
               (dict_get_setitem_eq d1 key v2)).
    subst d1. rewrite Hg, dict_get_setitem_eq. repeat split.
    eexists. split; [apply Hrt | apply dict_get_setitem_eq].
  - intros self old Hg. rewrite memory_replace. simpl. rewrite Hg. simpl.
    split; congruence.
  - intros w d old (data & Hf & Hl)%read_store_Some Hg.
    rewrite (disk_replace w key v1 data d Hf Hl). simpl. rewrite Hg. simpl.
    split; congruence.
Qed.

(** C5.  [delete] on a key that is there returns its value and removes the
    key and nothing else: afterwards the key is not there, every other
    key holds what it held, and a [get] of the key raises [KeyError].
    [delete] and [get] on a key that is not there raise [KeyError] and
    change nothing.  This holds in memory and on disk. *)
Theorem C5_delete_then_get key :
  pickle_roundtrip →
  (∀ self v, dict_get (InMemoryKvStore.kv_store self) key = Some v →
     let r := InMemoryKvStore.delete key self in
     r.1 = Return v
     ∧ dict_get (InMemoryKvStore.kv_store r.2) key = None
     ∧ (∀ k, k ≠ key →
          dict_get (InMemoryKvStore.kv_store r.2) k
            = dict_get (InMemoryKvStore.kv_store self) k)
     ∧ InMemoryKvStore.get key r.2 = (Raise (KeyError key), r.2))
  ∧ (∀ self, dict_get (InMemoryKvStore.kv_store self) key = None →
     InMemoryKvStore.delete key self = (Raise (KeyError key), self)
     ∧ InMemoryKvStore.get key self = (Raise (KeyError key), self))
  ∧ (∀ w d v, read_store w = Some d → dict_get d key = Some v →
     let r := LocalDiskKvStore.delete key w in
     r.1 = Return v
     ∧ (∃ d', read_store r.2 = Some d' ∧ dict_get d' key = None
              ∧ ∀ k, k ≠ key → dict_get d' k = dict_get d k)
     ∧ (LocalDiskKvStore.get key r.2).1 = Raise (KeyError key))
  ∧ (∀ w d, read_store w = Some d → dict_get d key = None →
     LocalDiskKvStore.delete key w = (Raise (KeyError key), after_read w)
     ∧ LocalDiskKvStore.get key w = (Raise (KeyError key), after_read w)
     ∧ kv_file (after_read w) = kv_file w
     ∧ writes (io_trace (after_read w)) = writes (io_trace w)).
Proof.
  intros Hrt.
  assert (∀ d k, k ≠ key → dict_get (dict_remove d key) k = dict_get d k) as Hframe.
  { intros d k Hk. rewrite dict_get_remove. by rewrite decide_False. }
  split; [|split; [|split]].
  - intros self v Hg. rewrite (memory_delete_present self key v Hg). simpl.
    split; [done|]. split; [apply dict_get_remove_eq|].
    split; [apply Hframe|]. apply memory_get_absent, dict_get_remove_eq.
  - intros self Hg. split; [by apply memory_delete_absent | by apply memory_get_absent].
  - intros w d v (data & Hf & Hl)%read_store_Some Hg.
    rewrite (disk_delete_present w key data d v Hf Hl Hg). simpl.
    set (d1 := dict_remove d key). set (w1 := after_rewrite w d1).
    rewrite (disk_get_absent w1 key (pickle_dump d1) d1 eq_refl (Hrt d1)
               (dict_get_remove_eq d key)).
    repeat split. exists d1.
    split; [apply Hrt|]. split; [apply dict_get_remove_eq | apply Hframe].
  - intros w d (data & Hf & Hl)%read_store_Some Hg.
    split; [by apply (disk_delete_absent w key data d)|].
    split; [by apply (disk_get_absent w key data d)|].
    split; [done | apply writes_after_read].
Qed.

(** C6.  When [create(k, v)] on a disk backend has succeeded, a new disk
    backend made on the same file returns [v] for [get(k)].  The
    constructor leaves an existing file as it is, and writes the pickle of
    the empty dict when there is no file. *)
Theorem C6_disk_persistence key value w r w1 :
  pickle_roundtrip →
  LocalDiskKvStore.create key value (LocalDiskKvStore.__init__ w) = (Return r, w1) →
  (LocalDiskKvStore.get key (LocalDiskKvStore.__init__ w1)).1 = Return value
  ∧ LocalDiskKvStore.__init__ w1 = w1
  ∧ (∀ w0 data, kv_file w0 = Some data → LocalDiskKvStore.__init__ w0 = w0)
  ∧ (∀ w0, kv_file w0 = None →
       kv_file (LocalDiskKvStore.__init__ w0) = Some (pickle_dump [])
       ∧ read_store (LocalDiskKvStore.__init__ w0) = Some []).
Proof.
  intros Hrt Hc.
  assert (∃ d, w1 = after_rewrite (LocalDiskKvStore.__init__ w) (dict_setitem d key value))
    as [d ->].
  { set (wi := LocalDiskKvStore.__init__ w) in *.
    destruct (kv_file wi) as [data|] eqn:Hf.
    - destruct (pickle_load data) as [d|] eqn:Hl.
      + destruct (dict_get d key) as [v|] eqn:Hg.
        * rewrite (disk_create_present wi key value data d v Hf Hl Hg) in Hc.
          discriminate.
        * rewrite (disk_create_absent wi key value data d Hf Hl Hg) in Hc.
          exists d. congruence.
      + pose proof (disk_op_corrupt (OpCreate key value) wi data Hf Hl) as Hr.
        simpl in Hr. rewrite Hr in Hc. discriminate.
    - pose proof (disk_op_no_file (OpCreate key value) wi Hf) as Hr.
      simpl in Hr. rewrite Hr in Hc. discriminate. }
  set (d1 := dict_setitem d key value).
  set (w1 := after_rewrite (LocalDiskKvStore.__init__ w) d1).
  assert (LocalDiskKvStore.__init__ w1 = w1) as Hi
    by apply (disk_init_existing w1 (pickle_dump d1) eq_refl).
  rewrite Hi. split; [|split; [done|split]].
  - by rewrite (disk_get_present w1 key (pickle_dump d1) d1 value eq_refl (Hrt d1)
                  (dict_get_setitem_eq d key value)).
  - apply disk_init_existing.
  - intros w0 Hf. pose proof (disk_init_fresh w0 Hf) as Hk. split; [done|].
    unfold read_store. rewrite Hk. apply Hrt.
Qed.

(** C7, as the code has it.  The write of [_safe_op] is done in place, in
    two steps: the file is opened for writing, which empties it, and then
    the dict is dumped into it.  A write that stops before the first step
    leaves the world as it was; one that stops between the two leaves an
    empty file, which no read can decode; only a write that has done both
    steps leaves the pickle of the new dict.  The write that [_safe_op]
    does after a read is the one of both steps. *)
Theorem C7_write_is_in_place kv_store w :
  pickle_nonempty →
  interrupted_write 0 kv_store w = w
  ∧ kv_file (interrupted_write 1 kv_store w) = Some []
  ∧ read_store (interrupted_write 1 kv_store w) = None
  ∧ (∀ op, apply_op op (interrupted_write 1 kv_store w)
           = (Raise UnpicklingError, after_read (interrupted_write 1 kv_store w)))
  ∧ (∀ n, 2 ≤ n →
       kv_file (interrupted_write n kv_store w) = Some (pickle_dump kv_store))
  ∧ interrupted_write 2 kv_store (after_read w) = after_rewrite w kv_store.
Proof.
  intros Hne. split; [done|]. split; [done|]. split; [apply Hne|].
  split; [|split].
  - intros op. by apply (disk_op_corrupt op _ []).
  - intros n Hn. destruct n as [|[|n]]; [lia..|].
    unfold interrupted_write. simpl. by rewrite take_nil.
  - unfold interrupted_write, after_rewrite, after_read. simpl.
    unfold file_write, open_wb. simpl. by rewrite <- !app_assoc.
Qed.

(** C8.  When the file does not decode, every operation fails with the
    error of the decoder, [UnpicklingError]; it reads the file and writes
    nothing, so the file holds what it held.  The outcome is not the one
    the operation has on an empty store. *)
Theorem C8_corrupt_file_is_fatal op w data :
  kv_file w = Some data → pickle_load data = None →
  apply_op op w = (Raise UnpicklingError, after_read w)
  ∧ kv_file (after_read w) = Some data
  ∧ io_trace (after_read w) = io_trace w ++ [OpenRead]
  ∧ writes (io_trace (after_read w)) = writes (io_trace w)
  ∧ (apply_op op w).1 ≠ (apply_op op InMemoryKvStore.__init__).1.
Proof.
  intros Hf Hl. rewrite (disk_op_corrupt op w data Hf Hl).
  split; [done|]. split; [done|]. split; [done|].
  split; [apply writes_after_read|].
  by destruct op.
Qed.

(** C9.  After any sequence of operations on a backend that starts empty,
    the dict holds at most one entry under each key: in memory, the dict
    of the backend; on disk, the dict the file decodes to, which is there
    after every sequence. *)
Theorem C9_keys_unique ops key w0 :
  pickle_roundtrip → kv_file w0 = None →
  dict_count (InMemoryKvStore.kv_store (run_ops ops InMemoryKvStore.__init__)) key ≤ 1
  ∧ ∃ d, read_store (run_ops ops (LocalDiskKvStore.__init__ w0)) = Some d
         ∧ dict_count d key ≤ 1.
Proof.
  intros Hrt Hf.
  assert (dict_count (InMemoryKvStore.kv_store (run_ops ops InMemoryKvStore.__init__)) key ≤ 1)
    as Hm by (apply dict_count_NoDup, memory_run_ops_NoDup; constructor).
  split; [done|]. eexists. split; [|apply Hm].
  apply disk_run_ops_store; [done|].
  unfold read_store. rewrite (disk_init_fresh w0 Hf). apply Hrt.
Qed.

(** C10.  On disk, every operation that succeeds has read the file, opened
    it for writing and dumped a dict into it, in this order.  For [get] on
    a key that is there, the dict dumped is the dict that was read. *)
Theorem C10_success_rewrites_file :
  (∀ op w v w', apply_op op w = (Return v, w') →
     ∃ d', kv_file w' = Some (pickle_dump d')
           ∧ io_trace w' = io_trace w ++ [OpenRead; OpenWrite; Dump (pickle_dump d')])
  ∧ (∀ key w d v, read_store w = Some d → dict_get d key = Some v →
     ∃ w', LocalDiskKvStore.get key w = (Return v, w')
           ∧ kv_file w' = Some (pickle_dump d)
           ∧ io_trace w' = io_trace w ++ [OpenRead; OpenWrite; Dump (pickle_dump d)]).
Proof.
  split.
  - intros op w v w' Hop.
    destruct (kv_file w) as [data|] eqn:Hf.
    + destruct (pickle_load data) as [d|] eqn:Hl.
      * pose proof (disk_vs_memory op w data d Hf Hl) as Hsim.
        destruct (apply_op op (InMemoryKvStore.Build d)) as [[v'|e] self'].
        -- rewrite Hsim in Hop. injection Hop as _ <-. by eexists.
        -- assert (∃ e', apply_op op w = (Raise e', after_read w)) as [e' He]
             by (destruct e; eauto).
           rewrite He in Hop. discriminate.
      * rewrite (disk_op_corrupt op w data Hf Hl) in Hop. discriminate.
    + rewrite (disk_op_no_file op w Hf) in Hop. discriminate.
  - intros key w d v (data & Hf & Hl)%read_store_Some Hg.
    exists (after_rewrite w d). split; [|done].
    by apply (disk_get_present w key data d v).
Qed.

End Contract.

Section Claims.
#[local] Existing Instance RefPickle.pickle.

(** C1, at the input where the code departs from it.  The file holds
    [{'foo': 'bar'}] and [create('foo', 'baz')] is called.  The in-memory
    backend raises [KeyConflict] with the key, the value that is there and
    the value that was given.  The disk backend calls [KeyConflict] with
    two arguments, so what it raises is the [TypeError] of that call, with
    none of the three; the file still holds [{'foo': 'bar'}]. *)
Theorem C1_disk_create_conflict_raises_TypeError :
  InMemoryKvStore.create "foo" (VStr "baz") foo_bar_memory
    = (Raise (KeyConflict "foo" (VStr "bar") (VStr "baz")), foo_bar_memory)
  ∧ LocalDiskKvStore.create "foo" (VStr "baz") (world_of foo_bar)
    = (Raise arity_error, after_read (world_of foo_bar))
  ∧ read_store (after_read (world_of foo_bar)) = Some foo_bar.
Proof.
  split; [reflexivity|]. split.
  - apply (disk_create_present _ _ _ (pickle_dump foo_bar) foo_bar (VStr "bar")).
    + reflexivity.
    + apply RefPickle_roundtrip.
    + reflexivity.
  - apply RefPickle_roundtrip.
Qed.

(** C2, at the input where the code departs from it.  On the file that
    holds [{'foo': 'bar'}], [create('foo', 'baz')] fails on both backends,
    but not with the same outcome: [KeyConflict] in memory, [TypeError] on
    disk.  ([disk_vs_memory] shows that this is the one case where the two
    differ.) *)
Theorem C2_disk_differs_from_memory_on_conflict :
  (apply_op (OpCreate "foo" (VStr "baz")) foo_bar_memory).1
    = Raise (KeyConflict "foo" (VStr "bar") (VStr "baz"))
  ∧ (apply_op (OpCreate "foo" (VStr "baz")) (world_of foo_bar)).1
    = Raise arity_error
  ∧ (apply_op (OpCreate "foo" (VStr "baz")) foo_bar_memory).1
    ≠ (apply_op (OpCreate "foo" (VStr "baz")) (world_of foo_bar)).1.
Proof.
  assert (apply_op (OpCreate "foo" (VStr "baz")) (world_of foo_bar)
          = (Raise arity_error, after_read (world_of foo_bar))) as Hd.
  { apply (disk_create_present _ _ _ (pickle_dump foo_bar) foo_bar (VStr "bar"));
      [reflexivity | apply RefPickle_roundtrip | reflexivity]. }
  rewrite Hd. split; [reflexivity|]. split; [reflexivity|]. discriminate.
Qed.

(** Against C3 as it is written: [replace('foo', 'baz')] on the file
    that holds [{'foo': 'bar'}], when the dump fails.  The call raises,
    and the file, which held a pickle, is empty and decodes to nothing. *)
Lemma C3_failed_dump_empties_the_file :
  read_store (world_of foo_bar) = Some foo_bar
  ∧ (disk_op_under DumpFails (OpReplace "foo" (VStr "baz")) (world_of foo_bar)).1
    = Raise OSError
  ∧ kv_file (disk_op_under DumpFails (OpReplace "foo" (VStr "baz"))
               (world_of foo_bar)).2 = Some []
  ∧ kv_file (disk_op_under DumpFails (OpReplace "foo" (VStr "baz"))
               (world_of foo_bar)).2 ≠ kv_file (world_of foo_bar)
  ∧ read_store (disk_op_under DumpFails (OpReplace "foo" (VStr "baz"))
                  (world_of foo_bar)).2 = None.
Proof.
  split; [apply RefPickle_roundtrip|].
  assert (disk_op_under DumpFails (OpReplace "foo" (VStr "baz")) (world_of foo_bar)
          = (Raise OSError, open_wb (after_read (world_of foo_bar)))) as ->.
  { rewrite disk_op_under_spec.
    change (apply_op (OpReplace "foo" (VStr "baz")) (world_of foo_bar))
      with (LocalDiskKvStore.replace "foo" (VStr "baz") (world_of foo_bar)).
    by rewrite (disk_replace (world_of foo_bar) "foo" (VStr "baz")
                  (pickle_dump foo_bar) foo_bar eq_refl (RefPickle_roundtrip _)). }
  repeat split. discriminate.
Qed.

(** C3 at work: a [create] on a key that is there, in memory; on disk a
    [delete] on a key that is not there, a [replace] whose open for
    writing fails, and a [replace] whose dump fails. *)
Lemma C3_witness :
  (apply_op (OpCreate "foo" (VStr "baz")) foo_bar_memory).2 = foo_bar_memory
  ∧ kv_file (disk_op_under DumpFails (OpDelete "qux") (world_of foo_bar)).2
    = kv_file (world_of foo_bar)
  ∧ kv_file (disk_op_under OpenFails (OpReplace "foo" (VStr "baz"))
               (world_of foo_bar)).2
    = kv_file (world_of foo_bar)
  ∧ kv_file (disk_op_under DumpFails (OpReplace "foo" (VStr "baz"))
               (world_of foo_bar)).2
    = Some [].
Proof.
  destruct C3_failure_before_the_dump_changes_nothing as (Hm & Hd & _).
  split; [|split; [|split]].
  - apply (Hm (OpCreate "foo" (VStr "baz")) foo_bar_memory
             (KeyConflict "foo" (VStr "bar") (VStr "baz"))).
    reflexivity.
  - apply (Hd DumpFails (OpDelete "qux") (world_of foo_bar) (KeyError "qux")).
    + vm_compute. reflexivity.
    + right. discriminate.
  - apply (Hd OpenFails (OpReplace "foo" (VStr "baz")) (world_of foo_bar) OSError).
    + vm_compute. reflexivity.
    + left. discriminate.
  - apply (Hd DumpFails (OpReplace "foo" (VStr "baz")) (world_of foo_bar) OSError).
    + vm_compute. reflexivity.
    + reflexivity.
    + reflexivity.
Defined.

(** Against C4 as it is written: [replace('foo', 'bar')] reports the same
    previous value, [None], when the key is not there and when a null is
    stored under it, in memory and on disk. *)
Lemma C4_sentinel_equals_stored_null :
  dict_get [] "foo" = None
  ∧ dict_get foo_null "foo" = Some VNone
  ∧ (InMemoryKvStore.replace "foo" (VStr "bar") (InMemoryKvStore.Build [])).1
    = (InMemoryKvStore.replace "foo" (VStr "bar") (InMemoryKvStore.Build foo_null)).1
  ∧ (LocalDiskKvStore.replace "foo" (VStr "bar") (world_of [])).1
    = (LocalDiskKvStore.replace "foo" (VStr "bar") (world_of foo_null)).1.
Proof. repeat split. Qed.

Lemma C4_witness :
  (InMemoryKvStore.replace "foo" (VStr "bar") InMemoryKvStore.__init__).1
    = Return VNone
  ∧ (LocalDiskKvStore.replace "foo" (VStr "bar") (world_of [])).1 = Return VNone
  ∧ (InMemoryKvStore.replace "foo" (VStr "bar") foo_bar_memory).1 ≠ Return VNone
  ∧ (LocalDiskKvStore.replace "foo" (VStr "bar") (world_of foo_bar)).1 ≠ Return VNone.
Proof.
  destruct (C4_replace_reports_previous_value "foo" (VStr "bar") (VStr "baz")
              RefPickle_roundtrip) as (Hm & Hd & Hm' & Hd').
  split; [|split; [|split]].
  - apply (Hm InMemoryKvStore.__init__). reflexivity.
  - apply (Hd (world_of []) []); reflexivity.
  - apply (Hm' foo_bar_memory (VStr "bar")); [reflexivity | discriminate].
  - apply (Hd' (world_of foo_bar) foo_bar (VStr "bar"));
      [reflexivity | reflexivity | discriminate].
Defined.

(** C5 at work, on [{'foo': 'bar', 'qux': 1}]: [delete('foo')] returns
    ['bar'], ['foo'] is gone and ['qux'] still holds 1, in memory and in
    the dict the file decodes to. *)
Lemma C5_witness :
  ((InMemoryKvStore.delete "foo" foo_qux_memory).1 = Return (VStr "bar")
   ∧ dict_get (InMemoryKvStore.kv_store
                 (InMemoryKvStore.delete "foo" foo_qux_memory).2) "foo" = None
   ∧ dict_get (InMemoryKvStore.kv_store
                 (InMemoryKvStore.delete "foo" foo_qux_memory).2) "qux"
     = Some (VNum 1))
  ∧ InMemoryKvStore.get "foo" InMemoryKvStore.__init__
    = (Raise (KeyError "foo"), InMemoryKvStore.__init__)
  ∧ ((LocalDiskKvStore.delete "foo" (world_of foo_qux)).1 = Return (VStr "bar")
     ∧ ∃ d', read_store (LocalDiskKvStore.delete "foo" (world_of foo_qux)).2
             = Some d'
             ∧ dict_get d' "foo" = None ∧ dict_get d' "qux" = Some (VNum 1))
  ∧ LocalDiskKvStore.get "foo" (world_of [])
    = (Raise (KeyError "foo"), after_read (world_of [])).
Proof.
  destruct (C5_delete_then_get "foo" RefPickle_roundtrip) as (Hm & Hm' & Hd & Hd').
  split; [|split; [|split]].
  - destruct (Hm foo_qux_memory (VStr "bar") eq_refl) as (Hr & Hgone & Hother & _).
    split; [exact Hr|]. split; [exact Hgone|].
    rewrite (Hother "qux"%string) by discriminate. reflexivity.
  - apply (Hm' InMemoryKvStore.__init__). reflexivity.
  - destruct (Hd (world_of foo_qux) foo_qux (VStr "bar") (RefPickle_roundtrip _)
                eq_refl) as (Hr & (d' & Hd1 & Hgone & Hother) & _).
    split; [exact Hr|]. exists d'. split; [exact Hd1|]. split; [exact Hgone|].
    rewrite (Hother "qux"%string) by discriminate. reflexivity.
  - apply (Hd' (world_of []) []); reflexivity.
Defined.

Lemma C6_witness :
  (LocalDiskKvStore.get "foo"
     (LocalDiskKvStore.__init__
        (LocalDiskKvStore.create "foo" (VStr "bar")
           (LocalDiskKvStore.__init__ no_file)).2)).1
  = Return (VStr "bar").
Proof.
  apply (C6_disk_persistence "foo" (VStr "bar") no_file VNone _ RefPickle_roundtrip).
  vm_compute. reflexivity.
Defined.

(** Against C7 as it is written: [replace('foo', 'baz')] on the file that
    holds [{'foo': 'bar'}].  The write of the operation is the two steps
    of [write_path]; stopped after the first, it leaves an empty file,
    and a read of it finds neither the old dict nor the new one. *)
Lemma C7_interrupted_write_is_neither_old_nor_new :
  read_store (world_of foo_bar) = Some foo_bar
  ∧ (LocalDiskKvStore.replace "foo" (VStr "baz") (world_of foo_bar)).2
    = interrupted_write 2 [("foo"%string, VStr "baz")] (after_read (world_of foo_bar))
  ∧ kv_file (interrupted_write 1 [("foo"%string, VStr "baz")]
               (after_read (world_of foo_bar))) = Some []
  ∧ read_store (interrupted_write 1 [("foo"%string, VStr "baz")]
                  (after_read (world_of foo_bar))) ≠ Some foo_bar
  ∧ read_store (interrupted_write 1 [("foo"%string, VStr "baz")]
                  (after_read (world_of foo_bar))) ≠ Some [("foo"%string, VStr "baz")].
Proof.
  split; [apply RefPickle_roundtrip|]. split; [by vm_compute|].
  split; [reflexivity|]. split; discriminate.
Qed.

Lemma C7_witness :
  read_store (interrupted_write 1 foo_bar (world_of [])) = None
  ∧ kv_file (interrupted_write 2 foo_bar (world_of [])) = Some (pickle_dump foo_bar).
Proof.
  destruct (C7_write_is_in_place foo_bar (world_of []) RefPickle_nonempty)
    as (_ & _ & Hr & _ & Hn & _).
  split; [exact Hr|]. apply (Hn 2). lia.
Defined.

Lemma C8_witness :
  apply_op (OpGet "foo") corrupt_file = (Raise UnpicklingError, after_read corrupt_file)
  ∧ kv_file (after_read corrupt_file) = Some [x00].
Proof.
  destruct (C8_corrupt_file_is_fatal (OpGet "foo") corrupt_file [x00])
    as (Hop & Hf & _); [reflexivity | reflexivity |].
  split; [exact Hop | exact Hf].
Defined.

Lemma C9_witness :
  dict_count
    (InMemoryKvStore.kv_store
       (run_ops [OpCreate "foo" (VStr "bar"); OpCreate "foo" (VStr "baz");
                 OpReplace "foo" (VNum 1); OpGet "foo"]
          InMemoryKvStore.__init__)) "foo" ≤ 1
  ∧ ∃ d, read_store
           (run_ops [OpCreate "foo" (VStr "bar"); OpCreate "foo" (VStr "baz");
                     OpReplace "foo" (VNum 1); OpGet "foo"]
              (LocalDiskKvStore.__init__ no_file)) = Some d
         ∧ dict_count d "foo" ≤ 1.
Proof.
  apply (C9_keys_unique _ "foo" no_file RefPickle_roundtrip). reflexivity.
Defined.

Lemma C10_witness :
  (∃ d', kv_file (apply_op (OpDelete "foo") (world_of foo_bar)).2
           = Some (pickle_dump d')
         ∧ io_trace (apply_op (OpDelete "foo") (world_of foo_bar)).2
           = [OpenRead; OpenWrite; Dump (pickle_dump d')])
  ∧ ∃ w', LocalDiskKvStore.get "foo" (world_of foo_bar) = (Return (VStr "bar"), w')
          ∧ kv_file w' = Some (pickle_dump foo_bar)
          ∧ io_trace w' = [OpenRead; OpenWrite; Dump (pickle_dump foo_bar)].
Proof.
  destruct C10_success_rewrites_file as [Hop Hget]. split.
  - apply (Hop (OpDelete "foo") (world_of foo_bar) (VStr "bar")).
    vm_compute. reflexivity.
  - apply (Hget "foo" (world_of foo_bar) foo_bar (VStr "bar")); reflexivity.
Defined.

End Claims.


(** * More on the backends *)

Section Backends.
Context `{Pickle}.
Implicit Types (w : World) (self : InMemoryKvStore.t) (key k : string)
  (value v : Value) (data : list byte) (d : Store) (op : Op).

Lemma memory_eta self : {| InMemoryKvStore.kv_store := InMemoryKvStore.kv_store self |} = self.
Proof. by destruct self. Qed.

Lemma dict_remove_setitem_absent d key value :
  dict_get d key = None → dict_remove (dict_setitem d key value) key = d.
Proof.
  induction d as [|[k' v'] d IH]; simpl.
  - by rewrite decide_True.
  - destruct (decide (k' = key)) as [->|Hne]; [done|]. intros Hg. simpl.
    rewrite decide_False by done. by rewrite IH.
Qed.


(** What is known when a call of the disk backend has returned. *)
Lemma disk_create_Return w key value r w' :
  LocalDiskKvStore.create key value w = (Return r, w') →
  ∃ d, read_store w = Some d ∧ dict_get d key = None
       ∧ r = VNone ∧ w' = after_rewrite w (dict_setitem d key value).
Proof.
  intros Hc. destruct (kv_file w) as [data|] eqn:Hf.
  - destruct (pickle_load data) as [d|] eqn:Hl.
    + destruct (dict_get d key) as [v|] eqn:Hg.
      * rewrite (disk_create_present w key value data d v Hf Hl Hg) in Hc.
        discriminate.
      * rewrite (disk_create_absent w key value data d Hf Hl Hg) in Hc.
        exists d. injection Hc as <- <-. repeat split; [|done].
        apply read_store_Some. eauto.
    + pose proof (disk_op_corrupt (OpCreate key value) w data Hf Hl) as Hr.
      simpl in Hr. rewrite Hr in Hc. discriminate.
  - pose proof (disk_op_no_file (OpCreate key value) w Hf) as Hr.
    simpl in Hr. rewrite Hr in Hc. discriminate.
Qed.

(** X1.  When [create(k, v)] has returned, [get(k)] returns [v]: in
    memory, and on disk, where the [get] reads the file again. *)
Theorem X1_create_then_get key value :
  pickle_roundtrip →
  (∀ self r self', InMemoryKvStore.create key value self = (Return r, self') →
     InMemoryKvStore.get key self' = (Return value, self'))
  ∧ (∀ w r w', LocalDiskKvStore.create key value w = (Return r, w') →
     (LocalDiskKvStore.get key w').1 = Return value).
Proof.
  intros Hrt. split.
  - intros self r self' Hc.
    destruct (dict_get (InMemoryKvStore.kv_store self) key) as [v|] eqn:Hg.
    + rewrite (memory_create_present self key value v Hg) in Hc. discriminate.
    + rewrite (memory_create_absent self key value Hg) in Hc.
      injection Hc as _ <-. apply memory_get_present. simpl.
      apply dict_get_setitem_eq.
  - intros w r w' (d & _ & _ & _ & ->)%disk_create_Return.
    set (d1 := dict_setitem d key value).
    by rewrite (disk_get_present (after_rewrite w d1) key (pickle_dump d1) d1 value
                  eq_refl (Hrt d1) (dict_get_setitem_eq d key value)).
Qed.

(** The dict of the in-memory backend under another key than the one of
    the call. *)
Lemma memory_op_other_key op self k :
  op_key op ≠ k →
  dict_get (InMemoryKvStore.kv_store (apply_op op self).2) k
    = dict_get (InMemoryKvStore.kv_store self) k.
Proof.
  intros Hne. destruct op as [key value|key value|key|key]; simpl in *.
  - destruct (dict_get (InMemoryKvStore.kv_store self) key) as [v|] eqn:Hg.
    + by rewrite (memory_create_present self key value v Hg).
    + rewrite (memory_create_absent self key value Hg). simpl.
      by rewrite dict_get_setitem, decide_False.
  - rewrite memory_replace. simpl. by rewrite dict_get_setitem, decide_False.
  - destruct (dict_get (InMemoryKvStore.kv_store self) key) as [v|] eqn:Hg.
    + rewrite (memory_delete_present self key v Hg). simpl.
      by rewrite dict_get_remove, decide_False.
    + by rewrite (memory_delete_absent self key Hg).
  - done.
Qed.

(** X2.  A call about one key leaves what is stored under every other key
    as it was: in memory, and in the dict the file decodes to. *)
Theorem X2_other_keys_untouched op k :
  pickle_roundtrip → op_key op ≠ k →
  (∀ self, dict_get (InMemoryKvStore.kv_store (apply_op op self).2) k
           = dict_get (InMemoryKvStore.kv_store self) k)
  ∧ (∀ w d, read_store w = Some d →
       ∃ d', read_store (apply_op op w).2 = Some d' ∧ dict_get d' k = dict_get d k).
Proof.
  intros Hrt Hne. split.
  - intros self. by apply memory_op_other_key.
  - intros w d Hr. eexists. split; [by apply disk_op_store|].
    by apply (memory_op_other_key op (InMemoryKvStore.Build d)).
Qed.

(** X3.  [create] of a key that is not there, then [delete] of the key:
    the [delete] returns the value, and the backend is back where it was;
    on disk, the file holds the pickle of the dict it held. *)
Theorem X3_create_then_delete key value :
  pickle_roundtrip →
  (∀ self, dict_get (InMemoryKvStore.kv_store self) key = None →
     InMemoryKvStore.delete key (InMemoryKvStore.create key value self).2
       = (Return value, self))
  ∧ (∀ w d, read_store w = Some d → dict_get d key = None →
     (LocalDiskKvStore.delete key (LocalDiskKvStore.create key value w).2).1
       = Return value
     ∧ kv_file (LocalDiskKvStore.delete key (LocalDiskKvStore.create key value w).2).2
       = Some (pickle_dump d)).
Proof.
  intros Hrt. split.
  - intros self Hg. rewrite (memory_create_absent self key value Hg). simpl.
    rewrite (memory_delete_present _ key value) by apply dict_get_setitem_eq.
    simpl. by rewrite dict_remove_setitem_absent, memory_eta.
  - intros w d (data & Hf & Hl)%read_store_Some Hg.
    rewrite (disk_create_absent w key value data d Hf Hl Hg). simpl.
    set (d1 := dict_setitem d key value).
    rewrite (disk_delete_present (after_rewrite w d1) key (pickle_dump d1) d1 value
               eq_refl (Hrt d1) (dict_get_setitem_eq d key value)).
    simpl. subst d1. by rewrite dict_remove_setitem_absent.
Qed.

(** One call on disk, from the call in memory. *)
Lemma disk_op_outcome op w d :
  read_store w = Some d →
  (apply_op op w).1 = disk_outcome (apply_op op (InMemoryKvStore.Build d)).1.
Proof.
  intros (data & Hf & Hl)%read_store_Some.
  pose proof (disk_vs_memory op w data d Hf Hl) as Hsim.
  destruct (apply_op op (InMemoryKvStore.Build d)) as [[v|e] self'].
  - by rewrite Hsim.
  - destruct e; by rewrite Hsim.
Qed.

(** X4.  Along every sequence of calls on a file that decodes, the disk
    backend goes with the in-memory backend: after the sequence the file
    decodes to the dict the in-memory backend holds, and the calls have
    had the same outcomes, but for [TypeError] in the place of
    [KeyConflict]. *)
Theorem X4_disk_follows_memory ops w d :
  pickle_roundtrip → read_store w = Some d →
  read_store (run_ops ops w)
    = Some (InMemoryKvStore.kv_store (run_ops ops (InMemoryKvStore.Build d)))
  ∧ run_ops_results ops w
    = disk_outcome <$> run_ops_results ops (InMemoryKvStore.Build d).
Proof.
  intros Hrt Hr. split; [by apply disk_run_ops_store|].
  revert w d Hr. induction ops as [|op ops IH]; intros w d Hr; [done|].
  simpl. f_equal; [by apply disk_op_outcome|].
  rewrite (IH _ _ (disk_op_store op w d Hrt Hr)).
  by rewrite memory_eta.
Qed.

(** X5.  Without the file, every call raises [FileNotFoundError] and
    leaves the world as it is: no operation makes the file, only the
    constructor does. *)
Theorem X5_operations_never_make_the_file ops op w :
  kv_file w = None →
  apply_op op w = (Raise FileNotFoundError, w) ∧ run_ops ops w = w.
Proof.
  intros Hf. split; [by apply disk_op_no_file|].
  induction ops as [|op' ops IH]; [done|].
  rewrite run_ops_cons. by rewrite (disk_op_no_file op' w Hf).
Qed.



End Backends.

(** ** Reads and writes of the file *)

Section Trace.
Context `{Pickle}.
Implicit Types (w : World) (op : Op) (data : list byte) (d : Store).

(** With a file, a call ends in one of two ways. *)
Lemma disk_op_shape op w data :
  kv_file w = Some data →
  (∃ e, apply_op op w = (Raise e, after_read w))
  ∨ (∃ v d', apply_op op w = (Return v, after_rewrite w d')).
Proof.
  intros Hf. destruct (pickle_load data) as [d|] eqn:Hl.
  - pose proof (disk_vs_memory op w data d Hf Hl) as Hsim.
    destruct (apply_op op (InMemoryKvStore.Build d)) as [[v|e] self'].
    + right. eauto.
    + left. destruct e; eauto.
  - left. exists UnpicklingError. by apply (disk_op_corrupt op w data).
Qed.

Lemma reads_app t1 t2 : reads (t1 ++ t2) = reads t1 + reads t2.
Proof. unfold reads. by rewrite filter_app, length_app. Qed.

Lemma dumps_app t1 t2 : dumps (t1 ++ t2) = dumps t1 + dumps t2.
Proof. unfold dumps. by rewrite filter_app, length_app. Qed.

Lemma returned_cons r results :
  returned (r :: results) = (if has_returned r then 1 else 0) + returned results.
Proof.
  unfold returned. destruct r as [v|e].
  - by rewrite filter_cons_True.
  - by rewrite filter_cons_False.
Qed.

Lemma reads_after_read w : reads (io_trace (after_read w)) = reads (io_trace w) + 1.
Proof. unfold after_read. simpl. by rewrite reads_app. Qed.

Lemma dumps_after_read w : dumps (io_trace (after_read w)) = dumps (io_trace w).
Proof. unfold after_read. simpl. rewrite dumps_app. unfold dumps at 2. simpl. lia. Qed.

Lemma reads_after_rewrite w d :
  reads (io_trace (after_rewrite w d)) = reads (io_trace w) + 1.
Proof. unfold after_rewrite. simpl. by rewrite reads_app. Qed.

Lemma dumps_after_rewrite w d :
  dumps (io_trace (after_rewrite w d)) = dumps (io_trace w) + 1.
Proof. unfold after_rewrite. simpl. by rewrite dumps_app. Qed.

(** X8.  With a file, whatever it holds, every call reads it once, and
    dumps into it once when the call returns and not at all when it
    raises: after a sequence of calls the trace has one more read for
    each call and one more dump for each call that returned. *)
Theorem X8_one_read_per_call ops w :
  is_Some (kv_file w) →
  reads (io_trace (run_ops ops w)) = reads (io_trace w) + length ops
  ∧ dumps (io_trace (run_ops ops w))
    = dumps (io_trace w) + returned (run_ops_results ops w).
Proof.
  revert w. induction ops as [|op ops IH]; intros w [data Hf].
  - simpl. unfold returned. simpl. lia.
  - rewrite run_ops_cons. cbn [run_ops_results length]. rewrite returned_cons.
    destruct (disk_op_shape op w data Hf) as [[e He]|(v & d' & Hv)].
    + rewrite He. cbn [fst snd has_returned].
      destruct (IH (after_read w)) as [Hr Hd]; [by eexists|].
      rewrite Hr, Hd, reads_after_read, dumps_after_read. lia.
    + rewrite Hv. cbn [fst snd has_returned].
      destruct (IH (after_rewrite w d')) as [Hr Hd]; [by eexists|].
      rewrite Hr, Hd, reads_after_rewrite, dumps_after_rewrite. lia.
Qed.

End Trace.

(** * The service *)

(** ** Request bodies *)

Section RequestBody.
Implicit Types (request : Request) (fields : list (string * Json))
  (j instance : Json) (name : string).

Lemma assoc_Some_elem {A} (l : list (string * A)) name (a : A) :
  assoc l name = Some a → (name, a) ∈ l.
Proof.
  induction l as [|[k a'] l IH]; simpl; [done|].
  case_decide; subst.
  - intros [= ->]. apply elem_of_cons. by left.
  - intros Ha. apply elem_of_cons. right. auto.
Qed.

Lemma assoc_None_same_name {A} (l : list (string * A)) name :
  assoc l name = None → Forall (λ field, field.1 = name) l → l = [].
Proof.
  destruct l as [|[k a] l]; [done|]. simpl.
  intros Ha Hall. apply Forall_cons in Hall as [Hk _]. simpl in Hk.
  by rewrite decide_True in Ha.
Qed.

(** The types the request schema allows for [value]. *)
Lemma request_value_type j :
  json_type j ∈ [TString; TNumber; TBoolean] ↔ ∃ v, j = JValue v ∧ v ≠ VNone.
Proof.
  split.
  - intros Hin. destruct j as [[| | |]| |]; simpl in Hin;
      try (by eexists); exfalso;
      repeat (apply elem_of_cons in Hin as [Hin|Hin]; [discriminate|]);
      by apply elem_of_nil in Hin.
  - intros (v & -> & Hv). destruct v; [done|simpl..].
    + apply elem_of_cons. by left.
    + apply elem_of_cons. right. apply elem_of_cons. by left.
    + do 2 (apply elem_of_cons; right). apply elem_of_cons. by left.
Qed.

(** What [validate(body, REQUEST_SCHEMA)] lets through: an object all of
    whose properties are called [value] and hold a string, a number or a
    boolean. *)
Lemma valid_request instance :
  valid instance REQUEST_SCHEMA = true ↔
  ∃ fields, instance = JObject fields
    ∧ Forall (λ field, field.1 = "value"%string
                       ∧ ∃ v, field.2 = JValue v ∧ v ≠ VNone) fields.
Proof.
  unfold valid. rewrite andb_true_iff, bool_decide_eq_true. split.
  - intros [Hty Hfields]. destruct instance as [[| | |]| |fields]; try discriminate.
    exists fields. split; [done|]. simpl in Hfields.
    apply Is_true_true_2, forallb_True in Hfields.
    eapply Forall_impl; [exact Hfields|].
    intros [name j] Hok. unfold property_ok in Hok. simpl in *.
    destruct (decide ("value"%string = name)) as [<-|Hne]; [|done].
    split; [done|]. apply request_value_type. exact (bool_decide_unpack _ Hok).
  - intros (fields & -> & Hall). split; [done|]. simpl.
    apply Is_true_true_1, forallb_True. eapply Forall_impl; [exact Hall|].
    intros [name j] [Hname Hv]. unfold property_ok. simpl in *. subst name.
    rewrite decide_True by done. apply bool_decide_pack.
    by apply request_value_type.
Qed.

Lemma read_request_value_Ok request v :
  _read_request_value request = Ok v →
  v ≠ VNone
  ∧ ∃ fields, get_json request = Some (JObject fields)
              ∧ assoc fields "value" = Some (JValue v).
Proof.
  unfold _read_request_value. destruct (get_json request) as [instance|]; [|done].
  destruct (valid instance REQUEST_SCHEMA) eqn:Hvalid; [|done].
  apply valid_request in Hvalid as (fields & -> & Hall). simpl.
  destruct (assoc fields "value") as [j|] eqn:Ha; [|done].
  apply assoc_Some_elem in Ha as Hin.
  rewrite Forall_forall in Hall. destruct (Hall _ Hin) as (_ & v' & Hj & Hv).
  simpl in Hj. subst j. intros [= <-]. split; [done|]. by exists fields.
Qed.

Lemma read_request_value_Err request e :
  _read_request_value request = Err e →
  (e = BadRequest ∧ get_json request = None)
  ∨ (e = ValidationError
     ∧ ∃ instance, get_json request = Some instance
                   ∧ valid instance REQUEST_SCHEMA = false)
  ∨ (e = BackendError (KeyError "value") ∧ get_json request = Some (JObject [])).
Proof.
  unfold _read_request_value. destruct (get_json request) as [instance|].
  - destruct (valid instance REQUEST_SCHEMA) eqn:Hvalid.
    + apply valid_request in Hvalid as (fields & -> & Hall). simpl.
      destruct (assoc fields "value") as [j|] eqn:Ha.
      * apply assoc_Some_elem in Ha as Hin.
        rewrite Forall_forall in Hall. destruct (Hall _ Hin) as (_ & v' & Hj & Hv).
        simpl in Hj. by subst j.
      * intros [= <-]. right. right. split; [done|]. f_equal. f_equal.
        apply (assoc_None_same_name _ _ Ha).
        eapply Forall_impl; [exact Hall|]. by intros field [Hname _].
    + intros [= <-]. right. left. split; [done|]. by exists instance.
  - intros [= <-]. by left.
Qed.

(** X9.  What [_read_request_value] hands to the backend is the [value]
    property of the body, and it is a string, a number or a boolean:
    never [None]. *)
Theorem X9_request_value_is_never_null request v :
  _read_request_value request = Ok v →
  v ≠ VNone
  ∧ ∃ fields, get_json request = Some (JObject fields)
              ∧ assoc fields "value" = Some (JValue v).
Proof. apply read_request_value_Ok. Qed.

(** X10.  [_read_request_value] raises in exactly three situations.  It
    raises [BadRequest] exactly when the body is no JSON.  It raises
    [ValidationError] exactly when the body does not pass the schema,
    that is, when it is not an object all of whose properties are called
    [value] and hold a string, a number or a boolean.  It raises
    [KeyError] exactly when the body is the empty object, which passes
    the schema.  It raises nothing else. *)
Theorem X10_request_value_errors request :
  (_read_request_value request = Err BadRequest ↔ get_json request = None)
  ∧ (_read_request_value request = Err ValidationError
     ↔ ∃ instance, get_json request = Some instance
                   ∧ valid instance REQUEST_SCHEMA = false)
  ∧ (∀ instance,
       valid instance REQUEST_SCHEMA = false
       ↔ ¬ ∃ fields, instance = JObject fields
             ∧ Forall (λ field, field.1 = "value"%string
                                ∧ ∃ v, field.2 = JValue v ∧ v ≠ VNone) fields)
  ∧ (_read_request_value request = Err (BackendError (KeyError "value"))
     ↔ get_json request = Some (JObject []))
  ∧ (∀ e, _read_request_value request = Err e →
       e = BadRequest ∨ e = ValidationError ∨ e = BackendError (KeyError "value")).
Proof.
  split; [|split; [|split; [|split]]].
  - split.
    + by intros [[_ ?]|[[[=] _]|[[=] _]]]%read_request_value_Err.
    + intros Hj. unfold _read_request_value. by rewrite Hj.
  - split.
    + by intros [[[=] _]|[[_ ?]|[[=] _]]]%read_request_value_Err.
    + intros (instance & Hj & Hv). unfold _read_request_value.
      by rewrite Hj, Hv.
  - intros instance. rewrite <- valid_request. by destruct (valid _ _).
  - split.
    + by intros [[[=] _]|[[[=] _]|[_ ?]]]%read_request_value_Err.
    + intros Hj. unfold _read_request_value. by rewrite Hj.
  - intros e [[-> _]|[[-> _]|[-> _]]]%read_request_value_Err; auto.
Qed.

End RequestBody.

(** ** The view and the error handlers *)

Section View.
Context `{LibraryStr}.
Local Open Scope Z_scope.
Implicit Types (request : Request) (key : string) (value v : Value)
  (self : InMemoryKvStore.t) (e : ViewExn) (response : Response).

(** The view, method by method. *)
Lemma kv_operation_GET {B} `{ABCBackend B} request key (backend : B) :
  method request = "GET"%string →
  kv_operation request key backend =
    match call (get key backend) with
    | (Ok value, backend) =>
        (Ok (Some (_build_response 200 (Some key) value (Some NO_ERROR) None None)),
         backend)
    | (Err e, backend) => (Err e, backend)
    end.
Proof. intros Hm. unfold kv_operation. by rewrite Hm. Qed.

Lemma kv_operation_POST {B} `{ABCBackend B} request key (backend : B) :
  method request = "POST"%string →
  kv_operation request key backend =
    match _read_request_value request with
    | Ok value =>
        match call (create key value backend) with
        | (Ok _, backend) =>
            (Ok (Some (_build_response 201 (Some key) value (Some NO_ERROR) None
                         (Some [("Location"%string, base_url request)]))),
             backend)
        | (Err e, backend) => (Err e, backend)
        end
    | Err e => (Err e, backend)
    end.
Proof. intros Hm. unfold kv_operation. by rewrite Hm. Qed.

Lemma kv_operation_PUT {B} `{ABCBackend B} request key (backend : B) :
  method request = "PUT"%string →
  kv_operation request key backend =
    match _read_request_value request with
    | Ok value =>
        match call (replace key value backend) with
        | (Ok old_value, backend) =>
            (Ok (Some (_build_response
                         (if decide (old_value = VNone) then 201 else 200)
                         (Some key) value (Some NO_ERROR) None
                         (Some [("Location"%string, base_url request)]))),
             backend)
        | (Err e, backend) => (Err e, backend)
        end
    | Err e => (Err e, backend)
    end.
Proof. intros Hm. unfold kv_operation. by rewrite Hm. Qed.

Lemma kv_operation_DELETE {B} `{ABCBackend B} request key (backend : B) :
  method request = "DELETE"%string →
  kv_operation request key backend =
    match call (delete key backend) with
    | (Ok _, backend) =>
        (Ok (Some (_build_response 200 (Some key) VNone (Some NO_ERROR) None None)),
         backend)
    | (Err e, backend) => (Err e, backend)
    end.
Proof. intros Hm. unfold kv_operation. by rewrite Hm. Qed.

Lemma kv_operation_other {B} `{ABCBackend B} request key (backend : B) :
  method request ∉ ["GET"; "POST"; "PUT"; "DELETE"]%string →
  kv_operation request key backend = (Ok None, backend).
Proof.
  intros Hm. unfold kv_operation.
  rewrite !elem_of_cons, elem_of_nil in Hm.
  repeat (case_decide; [tauto|]). done.
Qed.

Lemma method_cases request :
  method request = "GET"%string ∨ method request = "POST"%string
  ∨ method request = "PUT"%string ∨ method request = "DELETE"%string
  ∨ method request ∉ ["GET"; "POST"; "PUT"; "DELETE"]%string.
Proof.
  destruct (decide (method request = "GET"%string)); [by left|right].
  destruct (decide (method request = "POST"%string)); [by left|right].
  destruct (decide (method request = "PUT"%string)); [by left|right].
  destruct (decide (method request = "DELETE"%string)); [by left|right].
  rewrite !elem_of_cons, elem_of_nil. tauto.
Qed.

Lemma dispatch_refused_body {B} `{ABCBackend B} request key
    (backend : B) e :
  method request = "POST"%string ∨ method request = "PUT"%string →
  _read_request_value request = Err e →
  ∃ response,
    dispatch request key backend = (Responded response, backend)
    ∧ dict_get (body response) "key" = None
    ∧ dict_get (body response) "error" = Some (VStr (exn_str e))
    ∧ (http_status response, dict_get (body response) "status") =
      match e with
      | BadRequest => (400%Z, Some (VNum FAILED_TO_PARSE_REQUEST_BODY))
      | ValidationError => (400%Z, Some (VNum FAILED_TO_VALIDATE_REQUEST_BODY))
      | BackendError _ => (404%Z, Some (VNum KEY_NOT_PRESENT))
      end.
Proof.
  intros Hm He.
  assert (kv_operation request key backend = (Err e, backend)) as Hop.
  { destruct Hm as [Hm|Hm].
    - by rewrite (kv_operation_POST _ _ _ Hm), He.
    - by rewrite (kv_operation_PUT _ _ _ Hm), He. }
  unfold dispatch. rewrite Hop.
  apply read_request_value_Err in He as [[-> _]|[[-> _]|[-> _]]];
    eexists; (split; [reflexivity|]); by repeat split.
Qed.

(** X11.  A [POST] or a [PUT] whose body [_read_request_value] refuses
    is answered without a call of the backend, whichever backend it is:
    400 with the status 3004 when the body is no JSON, 400 with 3005 when
    it does not pass the schema, and 404 with 3001, the answer for a key
    that is not there, when it is the empty object. *)
Theorem X11_refused_body_leaves_backend {B} `{ABCBackend B} request key
    (backend : B) e :
  method request = "POST"%string ∨ method request = "PUT"%string →
  _read_request_value request = Err e →
  ∃ response,
    dispatch request key backend = (Responded response, backend)
    ∧ dict_get (body response) "key" = None
    ∧ dict_get (body response) "error" = Some (VStr (exn_str e))
    ∧ (http_status response, dict_get (body response) "status") =
      match e with
      | BadRequest => (400%Z, Some (VNum FAILED_TO_PARSE_REQUEST_BODY))
      | ValidationError => (400%Z, Some (VNum FAILED_TO_VALIDATE_REQUEST_BODY))
      | BackendError _ => (404%Z, Some (VNum KEY_NOT_PRESENT))
      end.
Proof. apply dispatch_refused_body. Qed.

(** The in-memory backend behind the view: what becomes of a request. *)
Lemma memory_dispatch request key self :
  dispatch request key self =
    let d := InMemoryKvStore.kv_store self in
    if decide (method request = "GET"%string) then
      match dict_get d key with
      | Some v =>
          (Responded (_build_response 200 (Some key) v (Some NO_ERROR) None None), self)
      | None => (Responded (handle_key_missing (BackendError (KeyError key))), self)
      end
    else if decide (method request = "POST"%string) then
      match _read_request_value request with
      | Ok v =>
          match dict_get d key with
          | None =>
              (Responded (_build_response 201 (Some key) v (Some NO_ERROR) None
                            (Some [("Location"%string, base_url request)])),
               InMemoryKvStore.Build (dict_setitem d key v))
          | Some old =>
              (Responded (handle_key_conflict (BackendError (KeyConflict key old v))),
               self)
          end
      | Err e =>
          (match errorhandler e with
           | Some response => Responded response
           | None => Unhandled e
           end, self)
      end
    else if decide (method request = "PUT"%string) then
      match _read_request_value request with
      | Ok v =>
          (Responded (_build_response
                        (if decide (default VNone (dict_get d key) = VNone)
                         then 201 else 200)
                        (Some key) v (Some NO_ERROR) None
                        (Some [("Location"%string, base_url request)])),
           InMemoryKvStore.Build (dict_setitem d key v))
      | Err e =>
          (match errorhandler e with
           | Some response => Responded response
           | None => Unhandled e
           end, self)
      end
    else if decide (method request = "DELETE"%string) then
      match dict_get d key with
      | Some v =>
          (Responded (_build_response 200 (Some key) VNone (Some NO_ERROR) None None),
           InMemoryKvStore.Build (dict_remove d key))
      | None => (Responded (handle_key_missing (BackendError (KeyError key))), self)
      end
    else (NoResponse, self).
Proof.
  unfold dispatch, kv_operation. simpl.
  destruct (decide (method request = "GET"%string)) as [_|_].
  { unfold InMemoryKvStore.get, dict_getitem.
    by destruct (dict_get (InMemoryKvStore.kv_store self) key). }
  destruct (decide (method request = "POST"%string)) as [_|_].
  { destruct (_read_request_value request) as [v|e]; [|done].
    destruct (dict_get (InMemoryKvStore.kv_store self) key) as [old|] eqn:Hg.
    - by rewrite (memory_create_present self key v old Hg).
    - by rewrite (memory_create_absent self key v Hg). }
  destruct (decide (method request = "PUT"%string)) as [_|_].
  { destruct (_read_request_value request) as [v|e]; [|done].
    by rewrite memory_replace. }
  destruct (decide (method request = "DELETE"%string)) as [_|_]; [|done].
  destruct (dict_get (InMemoryKvStore.kv_store self) key) as [v|] eqn:Hg.
  - by rewrite (memory_delete_present self key v Hg).
  - by rewrite (memory_delete_absent self key Hg).
Qed.

Lemma handled_of_read_request_value request e :
  _read_request_value request = Err e →
  ∃ response, errorhandler e = Some response
    ∧ (http_status response = 400 ∨ http_status response = 404)
    ∧ dict_get (body response) "key" = None
    ∧ is_Some (dict_get (body response) "error")
    ∧ ∃ code, dict_get (body response) "status" = Some (VNum code) ∧ code ≠ NO_ERROR.
Proof.
  intros [[-> _]|[[-> _]|[-> _]]]%read_request_value_Err; eexists;
    (split; [reflexivity|]); simpl; repeat split; eauto; by eexists.
Qed.

(** X12.  With the in-memory backend every request on the route is
    answered, by the view or by an error handler, with one of the
    statuses 200, 201, 400, 404 and 409: no exception is left without a
    handler.  The view returns nothing only for a method that is none of
    the four. *)
Theorem X12_memory_service_answers request key self :
  match (dispatch request key self).1 with
  | Responded response =>
      http_status response ∈ [200; 201; 400; 404; 409]%Z
      ∧ method request ∈ ["GET"; "POST"; "PUT"; "DELETE"]%string
  | NoResponse => method request ∉ ["GET"; "POST"; "PUT"; "DELETE"]%string
  | Unhandled _ => False
  end.
Proof.
  rewrite memory_dispatch. simpl.
  destruct (decide (method request = "GET"%string)) as [Hm|HG].
  { rewrite Hm. destruct (dict_get _ key); simpl; split; by repeat constructor. }
  destruct (decide (method request = "POST"%string)) as [Hm|HP].
  { rewrite Hm. destruct (_read_request_value request) as [v|e] eqn:Hr.
    - destruct (dict_get _ key); simpl; split; by repeat constructor.
    - destruct (handled_of_read_request_value request e Hr)
        as (response & -> & Hst & _).
      simpl. by destruct Hst as [-> | ->]; split; repeat constructor. }
  destruct (decide (method request = "PUT"%string)) as [Hm|HU].
  { rewrite Hm. destruct (_read_request_value request) as [v|e] eqn:Hr.
    - simpl. case_decide; split; by repeat constructor.
    - destruct (handled_of_read_request_value request e Hr)
        as (response & -> & Hst & _).
      simpl. by destruct Hst as [-> | ->]; split; repeat constructor. }
  destruct (decide (method request = "DELETE"%string)) as [Hm|HD].
  { rewrite Hm. destruct (dict_get _ key); simpl; split; by repeat constructor. }
  simpl. rewrite !elem_of_cons, elem_of_nil. tauto.
Qed.

(** X13.  With the in-memory backend, a response with status 200 or 201
    carries the key, the status 1000 and no error; a response with
    another status carries an error, a status that is not 1000 and no
    key, and the request has left the backend as it was. *)
Theorem X13_memory_service_failures request key self response self' :
  dispatch request key self = (Responded response, self') →
  (http_status response = 200 ∨ http_status response = 201 →
     dict_get (body response) "status" = Some (VNum NO_ERROR)
     ∧ dict_get (body response) "key" = Some (VStr key)
     ∧ dict_get (body response) "error" = None)
  ∧ (http_status response ≠ 200 → http_status response ≠ 201 →
     self' = self
     ∧ is_Some (dict_get (body response) "error")
     ∧ dict_get (body response) "key" = None
     ∧ ∃ code, dict_get (body response) "status" = Some (VNum code)
               ∧ code ≠ NO_ERROR).
Proof.
  rewrite memory_dispatch. simpl.
  assert (∀ status v hd,
    let r := _build_response status (Some key) v (Some NO_ERROR) None hd in
    dict_get (body r) "status" = Some (VNum NO_ERROR)
    ∧ dict_get (body r) "key" = Some (VStr key)
    ∧ dict_get (body r) "error" = None) as Hok.
  { intros status v hd. unfold _build_response. simpl. by case_decide. }
  assert (∀ e, let r := handle_key_missing e in
    is_Some (dict_get (body r) "error") ∧ dict_get (body r) "key" = None
    ∧ ∃ code, dict_get (body r) "status" = Some (VNum code) ∧ code ≠ NO_ERROR) as Hmiss.
  { intros e. simpl. repeat split; eauto; by eexists. }
  destruct (decide (method request = "GET"%string)) as [_|_].
  { destruct (dict_get _ key) as [v|]; intros [= <- <-].
    - split; [intros _; apply Hok | simpl; lia].
    - split; [simpl; lia | intros _ _; split; [done | apply Hmiss]]. }
  destruct (decide (method request = "POST"%string)) as [_|_].
  { destruct (_read_request_value request) as [v|e] eqn:Hr.
    - destruct (dict_get _ key) as [old|]; intros [= <- <-].
      + split; [simpl; lia|]. intros _ _. split; [done|]. simpl.
        repeat split; eauto; by eexists.
      + split; [intros _; apply Hok | simpl; lia].
    - destruct (handled_of_read_request_value request e Hr)
        as (r & -> & Hst & Hkey & Herr & Hcode).
      intros [= <- <-]. split; [lia|]. by intros _ _. }
  destruct (decide (method request = "PUT"%string)) as [_|_].
  { destruct (_read_request_value request) as [v|e] eqn:Hr.
    - intros [= <- <-]. split; [intros _; apply Hok|]. simpl. case_decide; lia.
    - destruct (handled_of_read_request_value request e Hr)
        as (r & -> & Hst & Hkey & Herr & Hcode).
      intros [= <- <-]. split; [lia|]. by intros _ _. }
  destruct (decide (method request = "DELETE"%string)) as [_|_]; [|done].
  destruct (dict_get _ key) as [v|]; intros [= <- <-].
  - split; [intros _; apply Hok | simpl; lia].
  - split; [simpl; lia | intros _ _; split; [done | apply Hmiss]].
Qed.

(** ** No null in the store *)

Lemma null_free_setitem (d : Store) key v :
  v ≠ VNone → null_free d → null_free (dict_setitem d key v).
Proof.
  intros Hv Hd k. rewrite dict_get_setitem. case_decide; [congruence|apply Hd].
Qed.

Lemma null_free_remove (d : Store) key : null_free d → null_free (dict_remove d key).
Proof. intros Hd k. rewrite dict_get_remove. case_decide; [done|apply Hd]. Qed.

Lemma memory_dispatch_null_free request key self :
  null_free (InMemoryKvStore.kv_store self) →
  null_free (InMemoryKvStore.kv_store (dispatch request key self).2).
Proof.
  intros Hd. rewrite memory_dispatch. simpl.
  destruct (decide (method request = "GET"%string)) as [_|_].
  { by destruct (dict_get _ key). }
  destruct (decide (method request = "POST"%string)) as [_|_].
  { destruct (_read_request_value request) as [v|e] eqn:Hr; [|done].
    apply read_request_value_Ok in Hr as [Hv _].
    destruct (dict_get _ key); [done|]. simpl. by apply null_free_setitem. }
  destruct (decide (method request = "PUT"%string)) as [_|_].
  { destruct (_read_request_value request) as [v|e] eqn:Hr; [|done].
    apply read_request_value_Ok in Hr as [Hv _]. simpl. by apply null_free_setitem. }
  destruct (decide (method request = "DELETE"%string)) as [_|_]; [|done].
  destruct (dict_get _ key); [|done]. simpl. by apply null_free_remove.
Qed.

Lemma memory_serve_null_free requests self :
  null_free (InMemoryKvStore.kv_store self) →
  null_free (InMemoryKvStore.kv_store (serve requests self)).
Proof.
  revert self. induction requests as [|[request key] requests IH]; intros self Hd;
    [done|].
  apply IH. by apply memory_dispatch_null_free.
Qed.

(** X14.  Whatever requests the service has answered since it started
    with the in-memory backend, the store holds no null, and the status
    of a [PUT] that passes the schema tells what happened: 201 when the
    key was not there, 200 when it was. *)
Theorem X14_put_status_tells_created requests request key v :
  method request = "PUT"%string → _read_request_value request = Ok v →
  let self := serve requests InMemoryKvStore.__init__ in
  null_free (InMemoryKvStore.kv_store self)
  ∧ ∃ response,
      (dispatch request key self).1 = Responded response
      ∧ (http_status response = 201
         ↔ dict_get (InMemoryKvStore.kv_store self) key = None)
      ∧ (http_status response = 200
         ↔ is_Some (dict_get (InMemoryKvStore.kv_store self) key)).
Proof.
  intros Hm Hr self.
  assert (null_free (InMemoryKvStore.kv_store self)) as Hnf
    by (apply memory_serve_null_free; intros k; done).
  split; [done|]. rewrite memory_dispatch. simpl. rewrite Hm, Hr. simpl.
  eexists. split; [reflexivity|]. simpl.
  destruct (dict_get (InMemoryKvStore.kv_store self) key) as [old|] eqn:Hg; simpl.
  - rewrite decide_False by (intros ->; by apply (Hnf key)).
    repeat split; first [done | by eexists].
  - repeat split; first [done | by intros [? ?]].
Qed.

(** X15.  A [POST] that passes the schema, with the in-memory backend.
    On a key that is not there it stores the value and answers 201 with
    the key, the value and a [Location] header.  On a key that is there
    it answers 409 with the status 3003 and the text of the [KeyConflict],
    which names the key, the value that is there and the value that was
    sent, and the store is as it was. *)
Theorem X15_post_creates_or_conflicts request key self v :
  method request = "POST"%string → _read_request_value request = Ok v →
  (dict_get (InMemoryKvStore.kv_store self) key = None →
     ∃ response,
       dispatch request key self
         = (Responded response,
            InMemoryKvStore.Build (dict_setitem (InMemoryKvStore.kv_store self) key v))
       ∧ http_status response = 201
       ∧ body response
         = [("key"%string, VStr key); ("value"%string, v);
            ("status"%string, VNum NO_ERROR)]
       ∧ headers response = Some [("Location"%string, base_url request)])
  ∧ (∀ old, dict_get (InMemoryKvStore.kv_store self) key = Some old →
     ∃ response,
       dispatch request key self = (Responded response, self)
       ∧ http_status response = 409
       ∧ body response
         = [("status"%string, VNum CREATE_KEY_ALREADY_PRESENT);
            ("error"%string,
             VStr ("Key: " +:+ key +:+ ", Existing value: " +:+ py_str old
                   +:+ ", Supplied value: " +:+ py_str v))]).
Proof.
  intros Hm Hr. pose proof (read_request_value_Ok request v Hr) as [Hv _].
  split.
  - intros Hg. rewrite memory_dispatch. simpl. rewrite Hm, Hr, Hg. simpl.
    eexists. split; [reflexivity|]. unfold _build_response. simpl.
    by rewrite decide_False.
  - intros old Hg. rewrite memory_dispatch. simpl. rewrite Hm, Hr, Hg. simpl.
    eexists. split; [reflexivity|]. done.
Qed.

(** ** The responses and [RETURN_SCHEMA] *)

Lemma build_response_with_key status key value api_status error hd :
  valid (body_json (_build_response status (Some key) value api_status error hd))
    RETURN_SCHEMA = false.
Proof.
  unfold _build_response. simpl.
  by destruct (decide (value = VNone)), api_status, error.
Qed.

(** X16.  The response of each of the four error handlers passes
    [RETURN_SCHEMA]: its body holds the status, a number, and the error, a
    string, and nothing else. *)
Theorem X16_error_responses_pass_return_schema e response :
  errorhandler e = Some response →
  valid (body_json response) RETURN_SCHEMA = true
  ∧ ∃ code, body response
            = [("status"%string, VNum code); ("error"%string, VStr (exn_str e))].
Proof.
  destruct e as [[]| |]; simpl; try done; intros [= <-]; by eauto.
Qed.

(** X17.  No response that the view itself returns passes
    [RETURN_SCHEMA], whichever the backend: its body holds the key, a
    property the schema does not declare and, with
    [additionalProperties] false, does not allow. *)
Theorem X17_view_responses_fail_return_schema {B} `{ABCBackend B} request key
    (backend backend' : B) response :
  kv_operation request key backend = (Ok (Some response), backend') →
  dict_get (body response) "key" = Some (VStr key)
  ∧ valid (body_json response) RETURN_SCHEMA = false.
Proof.
  assert (∀ status value api_status error hd,
    let r := _build_response status (Some key) value api_status error hd in
    dict_get (body r) "key" = Some (VStr key)
    ∧ valid (body_json r) RETURN_SCHEMA = false) as Hkey.
  { intros. split; [|apply build_response_with_key]. unfold r, _build_response.
    simpl. by destruct (decide (value = VNone)), api_status, error. }
  unfold kv_operation.
  destruct (decide (method request = "GET"%string)) as [_|_].
  { destruct (call (get key backend)) as [[v|e] b]; intros [= <- <-]. apply Hkey. }
  destruct (decide (method request = "POST"%string)) as [_|_].
  { destruct (_read_request_value request) as [v|e]; [|done].
    destruct (call (create key v backend)) as [[v'|e] b]; intros [= <- <-].
    apply Hkey. }
  destruct (decide (method request = "PUT"%string)) as [_|_].
  { destruct (_read_request_value request) as [v|e]; [|done].
    destruct (call (replace key v backend)) as [[v'|e] b]; intros [= <- <-].
    apply Hkey. }
  destruct (decide (method request = "DELETE"%string)) as [_|_]; [|done].
  destruct (call (delete key backend)) as [[v|e] b]; intros [= <- <-]. apply Hkey.
Qed.

(** X18.  Through the service, with the in-memory backend: after a [POST]
    that stored a value under a key that was not there, a [GET] of the
    key answers 200 with the value; a [DELETE] of the key then puts the
    backend back where it was before the [POST], and a [GET] answers 404
    with the status 3001. *)
Theorem X18_post_get_delete_get post get_ delete_ key self v :
  method post = "POST"%string → _read_request_value post = Ok v →
  method get_ = "GET"%string → method delete_ = "DELETE"%string →
  dict_get (InMemoryKvStore.kv_store self) key = None →
  let posted := (dispatch post key self).2 in
  let deleted := (dispatch delete_ key posted).2 in
  (∃ response,
     dispatch get_ key posted = (Responded response, posted)
     ∧ http_status response = 200
     ∧ dict_get (body response) "value" = Some v)
  ∧ deleted = self
  ∧ ∃ response,
      dispatch get_ key deleted = (Responded response, deleted)
      ∧ http_status response = 404
      ∧ dict_get (body response) "status" = Some (VNum KEY_NOT_PRESENT).
Proof.
  intros Hpost Hr Hget Hdel Hg posted deleted.
  pose proof (read_request_value_Ok post v Hr) as [Hv _].
  assert (posted = InMemoryKvStore.Build
                     (dict_setitem (InMemoryKvStore.kv_store self) key v)) as Hposted.
  { unfold posted. rewrite memory_dispatch. simpl. by rewrite Hpost, Hr, Hg. }
  assert (deleted = self) as Hdeleted.
  { unfold deleted. rewrite memory_dispatch, Hposted. simpl. rewrite Hdel. simpl.
    rewrite dict_get_setitem_eq. simpl.
    rewrite dict_remove_setitem_absent by done. by destruct self. }
  split; [|split; [done|]].
  - rewrite memory_dispatch, Hposted. simpl. rewrite Hget. simpl.
    rewrite dict_get_setitem_eq. eexists. split; [reflexivity|].
    split; [done|]. unfold _build_response. simpl. by rewrite decide_False.
  - rewrite Hdeleted, memory_dispatch. simpl. rewrite Hget, Hg. simpl.
    eexists. by split.
Qed.

End View.

(** ** The disk backend behind the view *)

Section DiskView.
Context `{Pickle} `{LibraryStr}.

(** X19.  With the disk backend, a [POST] that passes the schema on a key
    that is there is answered by none of the handlers of the module: the
    backend raises [TypeError], not [KeyConflict], and no handler is
    registered for it.  The file is read and not written. *)
Theorem X19_disk_conflict_has_no_handler request key (w : World) (d : Store) old v :
  method request = "POST"%string → _read_request_value request = Ok v →
  read_store w = Some d → dict_get d key = Some old →
  dispatch request key w = (Unhandled (BackendError arity_error), after_read w).
Proof.
  intros Hm Hr (data & Hf & Hl)%read_store_Some Hg.
  unfold dispatch. rewrite (kv_operation_POST _ _ _ Hm), Hr.
  change (create key v w) with (LocalDiskKvStore.create key v w).
  by rewrite (disk_create_present w key v data d old Hf Hl Hg).
Qed.

End DiskView.

(** ** The disk backend and the in-memory backend behind the view *)

Section ServiceBackends.
Context `{Pickle} `{LibraryStr}.
Local Open Scope Z_scope.
Implicit Types (request : Request) (key : string) (w : World) (d : Store)
  (self : InMemoryKvStore.t).

(** X20.  Through the service with the in-memory backend, from any store:
    after a [PUT] of a value and a second [PUT] of another value under
    the same key, both passing the schema, the second is answered 200,
    and a [GET] of the key is answered 200 with the second value. *)
Theorem X20_put_put_get put1 put2 get_ key self v1 v2 :
  method put1 = "PUT"%string → _read_request_value put1 = Ok v1 →
  method put2 = "PUT"%string → _read_request_value put2 = Ok v2 →
  method get_ = "GET"%string →
  let first := (dispatch put1 key self).2 in
  let second := (dispatch put2 key first).2 in
  (∃ response, (dispatch put2 key first).1 = Responded response
               ∧ http_status response = 200)
  ∧ ∃ response, dispatch get_ key second = (Responded response, second)
                ∧ http_status response = 200
                ∧ dict_get (body response) "value" = Some v2.
Proof.
  intros Hm1 Hr1 Hm2 Hr2 Hget first second.
  pose proof (read_request_value_Ok put1 v1 Hr1) as [Hv1 _].
  pose proof (read_request_value_Ok put2 v2 Hr2) as [Hv2 _].
  assert (first = InMemoryKvStore.Build
                    (dict_setitem (InMemoryKvStore.kv_store self) key v1)) as Hfirst.
  { unfold first. rewrite memory_dispatch. simpl. by rewrite Hm1, Hr1. }
  assert (second = InMemoryKvStore.Build
                     (dict_setitem (InMemoryKvStore.kv_store first) key v2)) as Hsecond.
  { unfold second. rewrite memory_dispatch. simpl. by rewrite Hm2, Hr2. }
  split.
  - rewrite memory_dispatch, Hfirst. simpl. rewrite Hm2, Hr2. simpl.
    rewrite dict_get_setitem_eq. simpl. rewrite decide_False by done.
    by eexists.
  - rewrite memory_dispatch, Hsecond. simpl. rewrite Hget. simpl.
    rewrite dict_get_setitem_eq. eexists. split; [reflexivity|].
    split; [done|]. unfold _build_response. simpl. by rewrite decide_False.
Qed.

(** The view on the disk backend, from the view on the in-memory backend:
    the call of the backend has the outcome [disk_outcome] gives. *)
Lemma disk_call op w d :
  pickle_roundtrip → read_store w = Some d →
  ∃ w', apply_op op w
        = (disk_outcome (apply_op op (InMemoryKvStore.Build d)).1, w')
        ∧ read_store w'
          = Some (InMemoryKvStore.kv_store (apply_op op (InMemoryKvStore.Build d)).2).
Proof.
  intros Hrt Hr. exists (apply_op op w).2. split.
  - rewrite <- (disk_op_outcome op w d Hr). by destruct (apply_op op w).
  - by apply disk_op_store.
Qed.

(** X21.  On a file that decodes to a dict, the service with the disk
    backend answers a request as the service with the in-memory backend
    on that dict does, and the file then decodes to the dict the
    in-memory backend holds; the one exception to the answer is the [POST]
    that passes the schema on a key that is there. *)
Theorem X21_disk_service_follows_memory request key w d :
  pickle_roundtrip → read_store w = Some d →
  read_store (dispatch request key w).2
    = Some (InMemoryKvStore.kv_store
              (dispatch request key (InMemoryKvStore.Build d)).2)
  ∧ ((∀ v, method request = "POST"%string → _read_request_value request = Ok v →
           dict_get d key = None) →
     (dispatch request key w).1
       = (dispatch request key (InMemoryKvStore.Build d)).1).
Proof.
  intros Hrt Hr.
  assert (∀ op, ∃ w', apply_op op w
      = (disk_outcome (apply_op op (InMemoryKvStore.Build d)).1, w')
      ∧ read_store w'
        = Some (InMemoryKvStore.kv_store (apply_op op (InMemoryKvStore.Build d)).2))
    as Hcall by (intros op; by apply disk_call).
  unfold dispatch, kv_operation.
  destruct (decide (method request = "GET"%string)) as [_|_].
  { destruct (Hcall (OpGet key)) as (w' & Hw & Hs). cbn [apply_op] in Hw, Hs.
    rewrite Hw. clear Hw. revert Hs. cbn [get InMemoryKvStore.backend].
    unfold InMemoryKvStore.get, dict_getitem. simpl.
    destruct (dict_get d key); simpl; by split. }
  destruct (decide (method request = "POST"%string)) as [Hpost|_].
  { destruct (_read_request_value request) as [v|e]; [|simpl; rewrite Hr; by split].
    destruct (Hcall (OpCreate key v)) as (w' & Hw & Hs). cbn [apply_op] in Hw, Hs.
    rewrite Hw. clear Hw. revert Hs. cbn [create InMemoryKvStore.backend].
    destruct (dict_get d key) as [old|] eqn:Hg.
    - rewrite (memory_create_present (InMemoryKvStore.Build d) key v old Hg).
      simpl. intros Hs. split; [done|]. intros Hno.
      by specialize (Hno v Hpost eq_refl).
    - rewrite (memory_create_absent (InMemoryKvStore.Build d) key v Hg).
      simpl. by split. }
  destruct (decide (method request = "PUT"%string)) as [_|_].
  { destruct (_read_request_value request) as [v|e]; [|simpl; rewrite Hr; by split].
    destruct (Hcall (OpReplace key v)) as (w' & Hw & Hs). cbn [apply_op] in Hw, Hs.
    rewrite Hw. clear Hw. revert Hs. cbn [replace InMemoryKvStore.backend].
    rewrite memory_replace. simpl. by split. }
  destruct (decide (method request = "DELETE"%string)) as [_|_]; [|simpl; rewrite Hr; by split].
  destruct (Hcall (OpDelete key)) as (w' & Hw & Hs). cbn [apply_op] in Hw, Hs.
  rewrite Hw. clear Hw. revert Hs. cbn [delete InMemoryKvStore.backend].
  destruct (dict_get d key) as [v|] eqn:Hg.
  - rewrite (memory_delete_present (InMemoryKvStore.Build d) key v Hg).
    simpl. by split.
  - rewrite (memory_delete_absent (InMemoryKvStore.Build d) key Hg).
    simpl. by split.
Qed.

End ServiceBackends.

(** ** Start-up *)

Section Startup.
Implicit Types (argv : list string) (environ : list (string * string)).

(** X22.  The settings of the main block.  With three arguments or more
    after the name of the script, the settings are the first three
    arguments and the environment plays no part.  With fewer, the
    arguments that were given are not used at all: the address is the
    value of [KV_SERVICE_IP] when the environment has it and 127.0.0.1
    when not, the port the value of [KV_SERVICE_PORT] or 8080, the type
    of the backend the value of [KV_SERVICE_BACKEND] or [local_disk]. *)
Theorem X22_main_settings argv environ :
  (4 ≤ length argv →
     ∃ ip port kv_backend_type,
       argv !! 1 = Some ip ∧ argv !! 2 = Some port
       ∧ argv !! 3 = Some kv_backend_type
       ∧ main_settings argv environ = (VStr ip, VStr port, VStr kv_backend_type))
  ∧ (length argv < 4 →
     main_settings argv environ
     = (match assoc environ "KV_SERVICE_IP" with
        | Some ip => VStr ip
        | None => VStr "127.0.0.1"
        end,
        match assoc environ "KV_SERVICE_PORT" with
        | Some port => VStr port
        | None => VNum 8080
        end,
        match assoc environ "KV_SERVICE_BACKEND" with
        | Some kv_backend_type => VStr kv_backend_type
        | None => VStr "local_disk"
        end)).
Proof.
  unfold main_settings. split.
  - intros Hlen.
    destruct argv as [|a0 [|a1 [|a2 [|a3 argv]]]]; simpl in Hlen; try lia.
    simpl. by exists a1, a2, a3.
  - intros Hlen.
    destruct argv as [|a0 [|a1 [|a2 [|a3 argv]]]]; simpl in Hlen; try lia; done.
Qed.

End Startup.

(** ** The properties at work *)

Section Witnesses.
#[local] Existing Instance RefPickle.pickle.
#[local] Existing Instance no_text.

Lemma X1_witness :
  InMemoryKvStore.get "foo" (InMemoryKvStore.create "foo" (VStr "bar")
                               InMemoryKvStore.__init__).2
    = (Return (VStr "bar"), foo_bar_memory)
  ∧ (LocalDiskKvStore.get "foo"
       (LocalDiskKvStore.create "foo" (VStr "bar") (world_of [])).2).1
    = Return (VStr "bar").
Proof.
  destruct (X1_create_then_get "foo" (VStr "bar") RefPickle_roundtrip) as [Hm Hd].
  split.
  - apply (Hm InMemoryKvStore.__init__ VNone). reflexivity.
  - apply (Hd (world_of []) VNone). vm_compute. reflexivity.
Defined.

Lemma X2_witness :
  dict_get (InMemoryKvStore.kv_store
              (apply_op (OpDelete "qux") foo_bar_memory).2) "foo"
    = Some (VStr "bar")
  ∧ ∃ d', read_store (apply_op (OpReplace "qux" (VNum 1)) (world_of foo_bar)).2
          = Some d'
          ∧ dict_get d' "foo" = dict_get foo_bar "foo".
Proof.
  split.
  - apply (proj1 (X2_other_keys_untouched (OpDelete "qux") "foo"
                    RefPickle_roundtrip ltac:(discriminate)) foo_bar_memory).
  - apply (proj2 (X2_other_keys_untouched (OpReplace "qux" (VNum 1)) "foo"
                    RefPickle_roundtrip ltac:(discriminate))
             (world_of foo_bar) foo_bar).
    reflexivity.
Defined.

Lemma X3_witness :
  InMemoryKvStore.delete "qux"
    (InMemoryKvStore.create "qux" (VNum 1) foo_bar_memory).2
    = (Return (VNum 1), foo_bar_memory)
  ∧ kv_file (LocalDiskKvStore.delete "qux"
               (LocalDiskKvStore.create "qux" (VNum 1) (world_of foo_bar)).2).2
    = Some (pickle_dump foo_bar).
Proof.
  destruct (X3_create_then_delete "qux" (VNum 1) RefPickle_roundtrip) as [Hm Hd].
  split.
  - apply (Hm foo_bar_memory). reflexivity.
  - apply (Hd (world_of foo_bar) foo_bar); reflexivity.
Defined.

Lemma X4_witness :
  run_ops_results [OpCreate "foo" (VStr "baz"); OpDelete "foo"; OpGet "foo"]
    (world_of foo_bar)
  = disk_outcome <$>
      run_ops_results [OpCreate "foo" (VStr "baz"); OpDelete "foo"; OpGet "foo"]
        foo_bar_memory.
Proof.
  apply (X4_disk_follows_memory _ (world_of foo_bar) foo_bar RefPickle_roundtrip).
  reflexivity.
Defined.

Lemma X5_witness :
  apply_op (OpReplace "foo" (VStr "bar")) no_file = (Raise FileNotFoundError, no_file)
  ∧ run_ops [OpReplace "foo" (VStr "bar"); OpGet "foo"] no_file = no_file.
Proof. apply X5_operations_never_make_the_file. reflexivity. Defined.



Lemma X8_witness :
  reads (io_trace (run_ops [OpGet "foo"; OpGet "qux"; OpDelete "foo"]
                     (world_of foo_bar))) = 3
  ∧ reads (io_trace (run_ops [OpGet "foo"; OpGet "qux"] corrupt_file)) = 2.
Proof.
  split.
  - apply (X8_one_read_per_call [OpGet "foo"; OpGet "qux"; OpDelete "foo"]
             (world_of foo_bar)). by eexists.
  - apply (X8_one_read_per_call [OpGet "foo"; OpGet "qux"] corrupt_file).
    by eexists.
Defined.

Lemma X9_witness :
  VStr "bar" ≠ VNone
  ∧ ∃ fields,
      get_json (request_of "POST" (value_body (VStr "bar"))) = Some (JObject fields)
      ∧ assoc fields "value" = Some (JValue (VStr "bar")).
Proof. apply X9_request_value_is_never_null. reflexivity. Defined.

(** X10 at work: no JSON, a body with a property the schema does not
    allow, and the empty object. *)
Lemma X10_witness :
  _read_request_value (request_of "PUT" None) = Err BadRequest
  ∧ _read_request_value
      (request_of "PUT"
         (Some (JObject [("value"%string, JValue (VStr "a"));
                         ("extra"%string, JValue (VNum 1))])))
    = Err ValidationError
  ∧ _read_request_value (request_of "PUT" (Some (JObject [])))
    = Err (BackendError (KeyError "value")).
Proof.
  split; [|split].
  - destruct (X10_request_value_errors (request_of "PUT" None)) as (Hbad & _).
    apply Hbad. reflexivity.
  - destruct (X10_request_value_errors
                (request_of "PUT"
                   (Some (JObject [("value"%string, JValue (VStr "a"));
                                   ("extra"%string, JValue (VNum 1))]))))
      as (_ & Hval & _).
    apply Hval. eexists. split; reflexivity.
  - destruct (X10_request_value_errors (request_of "PUT" (Some (JObject []))))
      as (_ & _ & _ & Hkey & _).
    apply Hkey. reflexivity.
Defined.

Lemma X11_witness :
  ∃ response,
    dispatch (request_of "POST" (value_body VNone)) "foo" foo_bar_memory
      = (Responded response, foo_bar_memory)
    ∧ dict_get (body response) "key" = None
    ∧ dict_get (body response) "error" = Some (VStr (exn_str ValidationError))
    ∧ (http_status response, dict_get (body response) "status")
      = (400%Z, Some (VNum FAILED_TO_VALIDATE_REQUEST_BODY)).
Proof.
  apply (X11_refused_body_leaves_backend (request_of "POST" (value_body VNone))
           "foo" foo_bar_memory ValidationError); [by left | reflexivity].
Defined.

Lemma X13_witness :
  dict_get (body (_build_response 200 (Some "foo"%string) (VStr "bar")
                    (Some NO_ERROR) None None)) "status"
  = Some (VNum NO_ERROR).
Proof.
  apply (X13_memory_service_failures (request_of "GET" None) "foo" foo_bar_memory
           _ foo_bar_memory eq_refl).
  by left.
Defined.

Lemma X14_witness :
  ∃ response,
    (dispatch (request_of "PUT" (value_body (VNum 2))) "foo"
       (serve [(request_of "POST" (value_body (VStr "bar")), "foo"%string)]
          InMemoryKvStore.__init__)).1 = Responded response
    ∧ (http_status response = 201%Z
       ↔ dict_get (InMemoryKvStore.kv_store
                     (serve [(request_of "POST" (value_body (VStr "bar")),
                              "foo"%string)] InMemoryKvStore.__init__)) "foo"
         = None)
    ∧ (http_status response = 200%Z
       ↔ is_Some (dict_get (InMemoryKvStore.kv_store
                              (serve [(request_of "POST" (value_body (VStr "bar")),
                                       "foo"%string)] InMemoryKvStore.__init__))
                    "foo")).
Proof.
  apply (X14_put_status_tells_created
           [(request_of "POST" (value_body (VStr "bar")), "foo"%string)]
           (request_of "PUT" (value_body (VNum 2))) "foo" (VNum 2));
    reflexivity.
Defined.

Lemma X15_witness :
  ∃ response,
    dispatch (request_of "POST" (value_body (VStr "baz"))) "foo" foo_bar_memory
      = (Responded response, foo_bar_memory)
    ∧ http_status response = 409%Z
    ∧ body response
      = [("status"%string, VNum CREATE_KEY_ALREADY_PRESENT);
         ("error"%string,
          VStr ("Key: " +:+ "foo" +:+ ", Existing value: " +:+ py_str (VStr "bar")
                +:+ ", Supplied value: " +:+ py_str (VStr "baz")))].
Proof.
  apply (proj2 (X15_post_creates_or_conflicts
                  (request_of "POST" (value_body (VStr "baz"))) "foo" foo_bar_memory
                  (VStr "baz") eq_refl eq_refl) (VStr "bar")).
  reflexivity.
Defined.

Lemma X16_witness :
  valid (body_json (handle_key_missing (BackendError (KeyError "foo"))))
    RETURN_SCHEMA = true.
Proof.
  apply (X16_error_responses_pass_return_schema (BackendError (KeyError "foo"))).
  reflexivity.
Defined.

Lemma X17_witness :
  valid (body_json (_build_response 200 (Some "foo"%string) (VStr "bar")
                      (Some NO_ERROR) None None)) RETURN_SCHEMA = false.
Proof.
  apply (X17_view_responses_fail_return_schema (request_of "GET" None) "foo"
           foo_bar_memory foo_bar_memory).
  reflexivity.
Defined.

Lemma X18_witness :
  (dispatch (request_of "DELETE" None) "foo"
     (dispatch (request_of "POST" (value_body (VStr "bar"))) "foo"
        InMemoryKvStore.__init__).2).2 = InMemoryKvStore.__init__.
Proof.
  apply (X18_post_get_delete_get (request_of "POST" (value_body (VStr "bar")))
           (request_of "GET" None) (request_of "DELETE" None) "foo"
           InMemoryKvStore.__init__ (VStr "bar")); reflexivity.
Defined.

Lemma X19_witness :
  dispatch (request_of "POST" (value_body (VStr "baz"))) "foo" (world_of foo_bar)
  = (Unhandled (BackendError arity_error), after_read (world_of foo_bar)).
Proof.
  apply (X19_disk_conflict_has_no_handler _ "foo" (world_of foo_bar) foo_bar
           (VStr "bar") (VStr "baz")); reflexivity.
Defined.

Lemma X20_witness :
  ∃ response,
    (dispatch (request_of "PUT" (value_body (VStr "baz"))) "foo"
       (dispatch (request_of "PUT" (value_body (VStr "bar"))) "foo"
          InMemoryKvStore.__init__).2).1 = Responded response
    ∧ http_status response = 200%Z.
Proof.
  apply (X20_put_put_get (request_of "PUT" (value_body (VStr "bar")))
           (request_of "PUT" (value_body (VStr "baz"))) (request_of "GET" None)
           "foo" InMemoryKvStore.__init__ (VStr "bar") (VStr "baz")); reflexivity.
Defined.

Lemma X21_witness :
  (dispatch (request_of "DELETE" None) "foo" (world_of foo_bar)).1
  = (dispatch (request_of "DELETE" None) "foo" foo_bar_memory).1.
Proof.
  apply (X21_disk_service_follows_memory (request_of "DELETE" None) "foo"
           (world_of foo_bar) foo_bar RefPickle_roundtrip).
  - vm_compute. reflexivity.
  - discriminate.
Defined.

(** X22 at work: two arguments and a port in the environment give the
    port of the environment and the two defaults; three arguments give
    the arguments. *)
Lemma X22_witness :
  main_settings ["main.py"; "0.0.0.0"; "80"]%string
    [("KV_SERVICE_PORT", "9090")]%string
  = (VStr "127.0.0.1", VStr "9090", VStr "local_disk")
  ∧ ∃ ip port kv_backend_type,
      ["main.py"; "0.0.0.0"; "80"; "in_memory"]%string !! 1 = Some ip
      ∧ ["main.py"; "0.0.0.0"; "80"; "in_memory"]%string !! 2 = Some port
      ∧ ["main.py"; "0.0.0.0"; "80"; "in_memory"]%string !! 3 = Some kv_backend_type
      ∧ main_settings ["main.py"; "0.0.0.0"; "80"; "in_memory"]%string
          [("KV_SERVICE_PORT", "9090")]%string
        = (VStr ip, VStr port, VStr kv_backend_type).
Proof.
  split.
  - apply (proj2 (X22_main_settings ["main.py"; "0.0.0.0"; "80"]%string
                    [("KV_SERVICE_PORT", "9090")]%string)). simpl. lia.
  - apply (proj1 (X22_main_settings ["main.py"; "0.0.0.0"; "80"; "in_memory"]%string
                    [("KV_SERVICE_PORT", "9090")]%string)). simpl. lia.
Defined.

End Witnesses.
